(** * armi.runLog: a shallow embedding of the rank-aware run log

  The development follows [armi/runLog.py].  Python [int]s are [Z],
  [str]s are [string], the two [defaultdict]s of the logger are
  association lists in insertion order, the file system is a finite map
  from paths to contents, and every method of the logger is a
  computation in a state-and-exception monad over the state of one
  process.  The methods run on [LOG], the object that [logFactory]
  builds when the module is imported and that every module-level
  function ([info], [warning], [setVerbosity], ...) works on.  A record
  handed to [self.logger.log] counts as emitted; what the [logging]
  library does with it afterwards is outside the model. *)

From Stdlib Require Import ZArith Ascii String DecimalString Sorted Permutation.
From Stdlib Require DecimalPos DecimalZ.
From stdpp Require Import gmap strings list fin_maps.

Local Open Scope string_scope.
Local Open Scope Z_scope.

(** ** The pieces of Python's [str] that the module uses *)

Module Py.

Definition nl : ascii := ascii_of_nat 10.

Definition NL : string := String nl EmptyString.

(** [str(n)] for an [int]. *)
Definition str_of_int (z : Z) : string :=
  NilZero.string_of_int (Z.to_int z).

Fixpoint repeat_char (c : ascii) (n : nat) : string :=
  match n with
  | O => EmptyString
  | S k => String c (repeat_char c k)
  end.

(** Padding of the format mini-language: [>], [<] and [^]. *)
Definition rjust (fill : ascii) (width : nat) (s : string) : string :=
  repeat_char fill (width - String.length s) +:+ s.

Definition ljust (fill : ascii) (width : nat) (s : string) : string :=
  s +:+ repeat_char fill (width - String.length s).

Definition center (fill : ascii) (width : nat) (s : string) : string :=
  let pad := (width - String.length s)%nat in
  let left := (pad / 2)%nat in
  repeat_char fill left +:+ s +:+ repeat_char fill (pad - left).

(** ["{:0Nd}"]: the sign comes first, the zeros fill up to the width. *)
Definition zfill_d (width : nat) (z : Z) : string :=
  if z <? 0
  then "-" +:+ rjust "0" (width - 1) (str_of_int (- z))
  else rjust "0" width (str_of_int z).

(** [str.isspace] on the characters below 128. *)
Definition isspace (c : ascii) : bool :=
  let n := nat_of_ascii c in
  ((9 <=? n) && (n <=? 13) || (28 <=? n) && (n <=? 32))%nat.

(** [s.rstrip()] *)
Fixpoint rstrip (s : string) : string :=
  match s with
  | EmptyString => EmptyString
  | String c r =>
      match rstrip r with
      | EmptyString => if isspace c then EmptyString else String c EmptyString
      | r' => String c r'
      end
  end.

(** [s.replace("\n", "\n" + pad)] *)
Fixpoint indent_newlines (pad : string) (s : string) : string :=
  match s with
  | EmptyString => EmptyString
  | String c r =>
      if Ascii.eqb c nl
      then String nl (pad +:+ indent_newlines pad r)
      else String c (indent_newlines pad r)
  end.

Definition startswith_sep (s : string) : bool :=
  match s with
  | String "/" _ => true
  | _ => false
  end.

Fixpoint endswith_sep (s : string) : bool :=
  match s with
  | EmptyString => false
  | String c EmptyString => Ascii.eqb c "/"
  | String _ r => endswith_sep r
  end.

(** [os.path.join(a, b)] of [posixpath]. *)
Definition path_join (a b : string) : string :=
  if startswith_sep b then b
  else if String.eqb a EmptyString || endswith_sep a then a +:+ b
  else a +:+ "/" +:+ b.

(** [max] of a list of [str]: the first of the largest elements (the
    list is never empty where the module calls it). *)
Definition str_max (l : list string) : string :=
  match l with
  | [] => EmptyString
  | x :: r => fold_left (fun m y => if String.ltb m y then y else m) r x
  end.

End Py.

(** ** Data model *)

(** The exceptions the module raises or catches.  The text of a
    [KeyError] is not kept; an [OSError] keeps [str(e)], which [close]
    logs. *)
Inductive exn :=
| KeyError
| OSError (msg : string).

Inductive outcome (A : Type) :=
| Return (a : A)
| Raise (e : exn).
Arguments Return {A} a.
Arguments Raise {A} e.

(** File-like objects.  Python compares them by identity: every [open]
    makes a new object, told apart here by its number. *)
Inductive stream :=
| Stdout
| Console
| Opened (id : nat) (path : string).

#[global] Instance stream_eq_dec : EqDecision stream.
Proof. solve_decision. Defined.

(** What a process does to the outside, in the order it happens. *)
Inductive Event :=
| Printed (target : stream) (text : string)
| Logged (logger : string) (level : Z) (msg : string)
| Configured (filename : option string) (level : Z)
| BarrierReached
| Flushed (s : stream)
| Closed (s : stream).

(** [collections.defaultdict(lambda: 0)] with [str] keys: the items in
    insertion order. *)
Module DefaultDict.

Definition t := list (string * Z).

Fixpoint get (d : t) (k : string) : option Z :=
  match d with
  | [] => None
  | (k', v) :: r => if String.eqb k' k then Some v else get r k
  end.

Fixpoint set (d : t) (k : string) (v : Z) : t :=
  match d with
  | [] => [(k, v)]
  | (k', v') :: r =>
      if String.eqb k' k then (k', v) :: r else (k', v') :: set r k v
  end.

(** [d[k]]: a missing key is first stored with the default 0. *)
Definition getitem (d : t) (k : string) : Z * t :=
  match get d k with
  | Some v => (v, d)
  | None => (0, set d k 0)
  end.

(** [d[k] += 1] *)
Definition incr (d : t) (k : string) : t :=
  let '(v, d') := getitem d k in set d' k (v + 1).

Definition clear (d : t) : t := [].

Definition items (d : t) : list (string * Z) := d.

(** The count of a key, 0 when it was never stored. *)
Definition count (d : t) (k : string) : Z := default 0 (get d k).

End DefaultDict.

(** The attributes of a [Log] object ([logger] is
    [logging.getLogger(loggerName)]). *)
Record Log := mkLog {
  _mpiRank : Z;
  _mpiSize : Z;
  _verbosity : Z;
  name : string;
  _singleMessageCounts : DefaultDict.t;
  _singleWarningMessageCounts : DefaultDict.t;
  loggerName : string;
  _errStream : stream;
  initialErr : stream
}.

(** The globals of [armi.context] that the module reads. *)
Record Context := mkContext {
  MPI_RANK : Z;
  MPI_SIZE : Z;
  MPI_COMM_is_None : bool
}.

(** One process: [armi.context], the module-level logger [LOG],
    [sys.stderr], the file system as the process sees it, and the trace of
    its effects.  [locked] holds the paths on which [os.remove] fails. *)
Record Process := mkProcess {
  context : Context;
  LOG : Log;
  sys_stderr : stream;
  files : gmap string string;
  dirs : gset string;
  locked : gset string;
  next_id : nat;
  trace : list Event
}.

Definition set_LOG (l : Log) (p : Process) : Process :=
  mkProcess (context p) l (sys_stderr p) (files p) (dirs p) (locked p) (next_id p) (trace p).

Definition set_sys_stderr (s : stream) (p : Process) : Process :=
  mkProcess (context p) (LOG p) s (files p) (dirs p) (locked p) (next_id p) (trace p).

Definition set_files (f : gmap string string) (p : Process) : Process :=
  mkProcess (context p) (LOG p) (sys_stderr p) f (dirs p) (locked p) (next_id p) (trace p).

Definition set_dirs (d : gset string) (p : Process) : Process :=
  mkProcess (context p) (LOG p) (sys_stderr p) (files p) d (locked p) (next_id p) (trace p).

Definition set_next_id (n : nat) (p : Process) : Process :=
  mkProcess (context p) (LOG p) (sys_stderr p) (files p) (dirs p) (locked p) n (trace p).

Definition add_event (e : Event) (p : Process) : Process :=
  mkProcess (context p) (LOG p) (sys_stderr p) (files p) (dirs p) (locked p) (next_id p)
            (trace p ++ [e]).

Definition set_verbosity (v : Z) (l : Log) : Log :=
  mkLog (_mpiRank l) (_mpiSize l) v (name l) (_singleMessageCounts l)
        (_singleWarningMessageCounts l) (loggerName l) (_errStream l) (initialErr l).

Definition set_name (n : string) (l : Log) : Log :=
  mkLog (_mpiRank l) (_mpiSize l) (_verbosity l) n (_singleMessageCounts l)
        (_singleWarningMessageCounts l) (loggerName l) (_errStream l) (initialErr l).

Definition set_singleMessageCounts (d : DefaultDict.t) (l : Log) : Log :=
  mkLog (_mpiRank l) (_mpiSize l) (_verbosity l) (name l) d
        (_singleWarningMessageCounts l) (loggerName l) (_errStream l) (initialErr l).

Definition set_singleWarningMessageCounts (d : DefaultDict.t) (l : Log) : Log :=
  mkLog (_mpiRank l) (_mpiSize l) (_verbosity l) (name l) (_singleMessageCounts l)
        d (loggerName l) (_errStream l) (initialErr l).

Definition set_errStream (s : stream) (l : Log) : Log :=
  mkLog (_mpiRank l) (_mpiSize l) (_verbosity l) (name l) (_singleMessageCounts l)
        (_singleWarningMessageCounts l) (loggerName l) s (initialErr l).

(** ** The monad of a method: state of the process, and exceptions *)

Definition M (A : Type) : Type := Process -> outcome A * Process.

Definition ret {A} (a : A) : M A := fun p => (Return a, p).

Definition bind {A B} (m : M A) (k : A -> M B) : M B :=
  fun p =>
    match m p with
    | (Return a, p') => k a p'
    | (Raise e, p') => (Raise e, p')
    end.

Definition raise {A} (e : exn) : M A := fun p => (Raise e, p).

Definition lift {A} (o : outcome A) : M A := fun p => (o, p).

Definition get_LOG : M Log := fun p => (Return (LOG p), p).

Definition modify (f : Process -> Process) : M unit := fun p => (Return tt, f p).

Definition modify_LOG (f : Log -> Log) : M unit :=
  modify (fun p => set_LOG (f (LOG p)) p).

Definition emit (e : Event) : M unit := modify (add_event e).

(** [try: m / except OSError as e: h e]; [IOError] is the same class. *)
Definition try_except_OSError {A} (m : M A) (h : string -> M A) : M A :=
  fun p =>
    match m p with
    | (Raise (OSError msg), p') => h msg p'
    | r => r
    end.

Declare Scope py_scope.
Delimit Scope py_scope with py.
Notation "x <- m ;; k" := (bind m (fun x => k))
  (at level 100, m at next level, right associativity) : py_scope.
Notation "m ;; k" := (bind m (fun _ => k))
  (at level 100, right associativity) : py_scope.
Local Open Scope py_scope.

(** [for x in l: body x] *)
Fixpoint for_ {A} (l : list A) (body : A -> M unit) : M unit :=
  match l with
  | [] => ret tt
  | x :: r => body x ;; for_ r body
  end.

(** [range(a, b)] *)
Definition range (a b : Z) : list Z :=
  map (fun i => a + Z.of_nat i) (seq 0 (Z.to_nat (b - a))).

(** ** Module-level constants *)

Definition _stderrName (n : string) (rank : Z) : string :=
  n +:+ "." +:+ Py.zfill_d 4 rank +:+ ".stderr".

Definition _stdoutName (n : string) (rank : Z) : string :=
  n +:+ "." +:+ Py.zfill_d 4 rank +:+ ".stdout".

Definition _rank (ctx : Context) : string :=
  if 0 <? MPI_RANK ctx
  then "-" +:+ Py.rjust "0" 3 (Py.str_of_int (MPI_RANK ctx))
  else EmptyString.

Definition _logLevels (ctx : Context) : list (string * (Z * string)) :=
  [ ("debug", (0, "[dbug" +:+ _rank ctx +:+ "] "));
    ("extra", (10, "[xtra" +:+ _rank ctx +:+ "] "));
    ("info", (20, "[info" +:+ _rank ctx +:+ "] "));
    ("important", (25, "[impt" +:+ _rank ctx +:+ "] "));
    ("prompt", (27, "[prmt" +:+ _rank ctx +:+ "] "));
    ("warning", (30, "[warn" +:+ _rank ctx +:+ "] "));
    ("error", (50, "[err " +:+ _rank ctx +:+ "] "));
    ("header", (100, EmptyString)) ].

Definition _whitespace (ctx : Context) : string :=
  Py.repeat_char " "
    (String.length (Py.str_max (map (fun l => snd (snd l)) (_logLevels ctx)))).

(** [logging.INFO] and [logging.WARNING] *)
Definition logging_INFO : Z := 20.
Definition logging_WARNING : Z := 30.

(** [d[k]] on an ordered dict: the first entry of the key. *)
Fixpoint assoc {V} (k : string) (l : list (string * V)) : option V :=
  match l with
  | [] => None
  | (k', v) :: r => if String.eqb k' k then Some v else assoc k r
  end.

(** [_logLevels[k]] *)
Definition _logLevels_getitem (ctx : Context) (k : string) : outcome (Z * string) :=
  match assoc k (_logLevels ctx) with
  | Some v => Return v
  | None => Raise KeyError
  end.

Definition getLogVerbosityLevels (ctx : Context) : list string :=
  map fst (_logLevels ctx).

Definition getLogVerbosityRank (ctx : Context) (level : string) : outcome Z :=
  if negb (bool_decide (level ∈ getLogVerbosityLevels ctx))
  then Raise KeyError
  else match _logLevels_getitem ctx level with
       | Return v => Return (fst v)
       | Raise e => Raise e
       end.

(** The loop of [_checkLogVerbsityRank] over the levels still to visit
    ([validRanks] only feeds the text of the error). *)
Fixpoint _checkLogVerbsityRank_from (ctx : Context) (levels : list string) (rank : Z)
  : outcome Z :=
  match levels with
  | [] => Raise KeyError
  | level :: rest =>
      match getLogVerbosityRank ctx level with
      | Raise e => Raise e
      | Return expectedRank =>
          if rank =? expectedRank then Return rank
          else _checkLogVerbsityRank_from ctx rest rank
      end
  end.

Definition _checkLogVerbsityRank (ctx : Context) (rank : Z) : outcome Z :=
  _checkLogVerbsityRank_from ctx (getLogVerbosityLevels ctx) rank.

(** ** class Log *)

(** [Log.__init__] as [logFactory] runs it when the module is imported:
    [sys.stderr] is still the console; a worker opens [os.devnull] as its
    initial error stream. *)
Definition logFactory (ctx : Context) (fs : gmap string string)
    (ds lk : gset string) : Process :=
  let mpiRank := MPI_RANK ctx in
  let initial := if mpiRank =? 0 then Console else Opened 0 "/dev/null" in
  mkProcess ctx
    (mkLog mpiRank (MPI_SIZE ctx) logging_INFO "log" [] []
       (if mpiRank =? 0 then "parent" else Py.rjust "0" 3 (Py.str_of_int mpiRank))
       initial initial)
    initial fs ds lk
    (if mpiRank =? 0 then 0%nat else 1%nat)
    (if mpiRank =? 0 then [Configured None logging_INFO] else []).

Definition _cleanMsg (ctx : Context) (msg : string) : string :=
  Py.indent_newlines (_whitespace ctx) (Py.rstrip msg).

(** Returns [True] if the count of the label is greater than 1. *)
Definition _msgHasAlreadyBeenEmitted (label msgType : string) : M bool :=
  if String.eqb msgType "warning" || String.eqb msgType "critical"
  then
    modify_LOG (fun self =>
      set_singleWarningMessageCounts
        (DefaultDict.incr (_singleWarningMessageCounts self) label) self) ;;
    self <- get_LOG ;;
    let '(c, d) := DefaultDict.getitem (_singleWarningMessageCounts self) label in
    modify_LOG (set_singleWarningMessageCounts d) ;;
    if 1 <? c then ret true else ret false
  else
    modify_LOG (fun self =>
      set_singleMessageCounts
        (DefaultDict.incr (_singleMessageCounts self) label) self) ;;
    self <- get_LOG ;;
    let '(c, d) := DefaultDict.getitem (_singleMessageCounts self) label in
    modify_LOG (set_singleMessageCounts d) ;;
    if 1 <? c then ret true else ret false.

(** [msg] stands for [str(msg)]; the record handed to [self.logger.log]
    is the emission. *)
Definition standardLogMsg (msgType msg : string) (single : bool)
    (label : option string) : M unit :=
  let label := match label with None => msg | Some l => l end in
  fun p =>
  (lv <- lift (_logLevels_getitem (context p) msgType) ;;
   let '(msgVerbosity, msgLabel) := lv in
   self <- get_LOG ;;
   if msgVerbosity <? _verbosity self then ret tt
   else
     skip <- (if single then _msgHasAlreadyBeenEmitted label msgType else ret false) ;;
     if skip then ret tt
     else
       self <- get_LOG ;;
       emit (Logged (loggerName self) msgVerbosity (_cleanMsg (context p) msg))) p.

Definition clearSingleWarnings : M unit :=
  modify_LOG (fun self =>
    set_singleMessageCounts (DefaultDict.clear (_singleMessageCounts self)) self).

Inductive levelInput :=
| LevelStr (s : string)
| LevelInt (z : Z).

Definition setVerbosity (lv : levelInput) : M unit :=
  fun p =>
  (v <- lift (match lv with
              | LevelStr s => getLogVerbosityRank (context p) s
              | LevelInt z => _checkLogVerbsityRank (context p) z
              end) ;;
   modify_LOG (set_verbosity v)) p.

Definition getVerbosity : M Z :=
  self <- get_LOG ;; ret (_verbosity self).

Definition setErrStream (stderr : stream) : M unit :=
  modify_LOG (set_errStream stderr) ;;
  modify (set_sys_stderr stderr).

Definition _restoreErrStream : M unit :=
  fun p =>
    if bool_decide (sys_stderr p = _errStream (LOG p))
    then modify (set_sys_stderr (initialErr (LOG p))) p
    else ret tt p.

(** The module-level functions that the methods call back. *)
Definition info (msg : string) (single : bool) (label : option string) : M unit :=
  standardLogMsg "info" msg single label.

Definition warning (msg : string) (single : bool) (label : option string) : M unit :=
  standardLogMsg "warning" msg single label.

Definition error (msg : string) (single : bool) (label : option string) : M unit :=
  standardLogMsg "error" msg single label.

(** [sorted(items, key=operator.itemgetter(1))]: Python's sort is stable,
    an item goes before the first later item whose count is not smaller. *)
Fixpoint insert_by_count (x : string * Z) (l : list (string * Z)) : list (string * Z) :=
  match l with
  | [] => [x]
  | y :: r => if snd x <=? snd y then x :: y :: r else y :: insert_by_count x r
  end.

Definition sorted_by_count (l : list (string * Z)) : list (string * Z) :=
  fold_right insert_by_count [] l.

Definition warningReport_header : string :=
  "  " +:+ Py.center " " 10 "COUNT" +:+ "   " +:+ Py.center " " 25 "LABEL".

Definition warningReport_line (item : string * Z) : string :=
  "  " +:+ Py.rjust " " 10 (Py.str_of_int (snd item)) +:+ "   "
       +:+ Py.ljust " " 25 (fst item).

Definition warningReport : M unit :=
  info "----- Final Warning Count --------" false None ;;
  info warningReport_header false None ;;
  self <- get_LOG ;;
  for_ (sorted_by_count (DefaultDict.items (_singleWarningMessageCounts self)))
       (fun item => info (warningReport_line item) false None) ;;
  info "------------------------------------" false None.

(** ** The operating system, as far as the log files need it *)

Definition os_path_exists (path : string) : M bool :=
  fun p => (Return (bool_decide (path ∈ dom (files p))
                    || bool_decide (path ∈ dirs p)), p).

Definition os_makedirs (path : string) : M unit :=
  b <- os_path_exists path ;;
  if b then raise (OSError ("[Errno 17] File exists: '" +:+ path +:+ "'"))
  else modify (fun p => set_dirs ({[ path ]} ∪ dirs p) p).

(** [with open(path) as f: f.read()] *)
Definition read_file (path : string) : M string :=
  fun p =>
    match files p !! path with
    | Some data => (Return data, p)
    | None =>
        if bool_decide (path ∈ dirs p)
        then (Raise (OSError ("[Errno 21] Is a directory: '" +:+ path +:+ "'")), p)
        else (Raise (OSError ("[Errno 2] No such file or directory: '" +:+ path +:+ "'")), p)
    end.

Definition os_remove (path : string) : M unit :=
  fun p =>
    if bool_decide (path ∈ locked p)
    then (Raise (OSError ("[Errno 13] Permission denied: '" +:+ path +:+ "'")), p)
    else match files p !! path with
         | Some _ => (Return tt, set_files (delete path (files p)) p)
         | None =>
             (Raise (OSError ("[Errno 2] No such file or directory: '" +:+ path +:+ "'")), p)
         end.

(** [open(path, "w")]: the file is created or emptied. *)
Definition open_w (path : string) : M stream :=
  fun p =>
    (Return (Opened (next_id p) path),
     set_next_id (S (next_id p)) (set_files (<[ path := EmptyString ]> (files p)) p)).

(** [print(text, file=target)] *)
Definition print (target : stream) (text : string) : M unit :=
  emit (Printed target (text +:+ Py.NL)).

(** ** class PrintLog *)

(** After [os.makedirs] the directory exists in this model, so the
    polling loop that follows it in the source does not run. *)
Definition _createLogDir : M unit :=
  b <- os_path_exists "logs" ;;
  if negb b
  then try_except_OSError (os_makedirs "logs") (fun _ => ret tt)
  else ret tt.

Definition startLog (n : string) : M unit :=
  modify_LOG (set_name (Py.path_join "logs" n)) ;;
  self <- get_LOG ;;
  (if _mpiRank self =? 0 then _createLogDir else ret tt) ;;
  (if 0 <? _mpiRank self
   then
     modify_LOG (set_verbosity logging_WARNING) ;;
     self <- get_LOG ;;
     emit (Configured
             (Some (Py.path_join (name self) (_stdoutName (name self) (_mpiRank self))))
             (_verbosity self))
   else ret tt) ;;
  fun p =>
  (if (_mpiSize self =? 1) || MPI_COMM_is_None (context p) then ret tt
   else
     emit BarrierReached ;;
     self <- get_LOG ;;
     if 0 <? _mpiRank self
     then
       errStream <- open_w (_stderrName (name self) (_mpiRank self)) ;;
       setErrStream errStream
     else ret tt) p.

Definition rankId (rank : Z) (kind : string) : string :=
  Py.NL +:+ Py.repeat_char "-" 10 +:+ " RANK " +:+ Py.zfill_d 3 rank +:+ " "
        +:+ kind +:+ " " +:+ Py.repeat_char "-" 60 +:+ Py.NL.

(** The body of the loop of [concatenateLogs] for one rank. *)
Definition concatenateLogs_rank (rank : Z) : M unit :=
  self <- get_LOG ;;
  let stdoutName := Py.path_join "logs" (_stdoutName (name self) rank) in
  b <- os_path_exists stdoutName ;;
  (if b
   then
     data <- read_file stdoutName ;;
     (if negb (String.eqb data EmptyString)
      then print Stdout (rankId rank "STDOUT") ;; print Stdout data
      else ret tt) ;;
     try_except_OSError (os_remove stdoutName)
       (fun _ => warning ("Could not delete " +:+ stdoutName) false None)
   else ret tt) ;;
  let stderrName := Py.path_join "logs" (_stderrName (name self) rank) in
  b <- os_path_exists stdoutName ;;
  if b
  then
    data <- read_file stderrName ;;
    (if negb (String.eqb data EmptyString)
     then
       (fun p => print (sys_stderr p) (rankId rank "STDERR") p) ;;
       (fun p => print (sys_stderr p) data p)
     else ret tt) ;;
    try_except_OSError (os_remove stderrName)
      (fun _ => warning ("Could not delete " +:+ stderrName) false None)
  else ret tt.

Definition concatenateLogs : M unit :=
  self <- get_LOG ;;
  info ("Concatenating " +:+ Py.str_of_int (_mpiSize self) +:+ " standard streams")
       false None ;;
  for_ (range 1 (_mpiSize self)) concatenateLogs_rank.

Definition close : M unit :=
  self <- get_LOG ;;
  (if (_mpiRank self =? 0) && (1 <? _mpiSize self)
   then
     try_except_OSError concatenateLogs
       (fun ee =>
          warning "Failed to concatenate logs due to IOError." false None ;;
          error ee false None)
   else if (0 <? _mpiRank self) && (1 <? _mpiSize self)
   then emit (Flushed (_errStream self)) ;; emit (Closed (_errStream self))
   else ret tt) ;;
  _restoreErrStream.

(** ** Vocabulary of the statements *)

(** The two branches of [_msgHasAlreadyBeenEmitted], and the dict each
    one counts in. *)
Inductive SeverityClass := WARNING_LIKE | OTHER.

#[global] Instance SeverityClass_eq_dec : EqDecision SeverityClass.
Proof. solve_decision. Defined.

Definition severityClass (msgType : string) : SeverityClass :=
  if String.eqb msgType "warning" || String.eqb msgType "critical"
  then WARNING_LIKE else OTHER.

Definition counts (c : SeverityClass) (l : Log) : DefaultDict.t :=
  match c with
  | WARNING_LIKE => _singleWarningMessageCounts l
  | OTHER => _singleMessageCounts l
  end.

Definition set_counts (c : SeverityClass) (d : DefaultDict.t) (l : Log) : Log :=
  match c with
  | WARNING_LIKE => set_singleWarningMessageCounts d l
  | OTHER => set_singleMessageCounts d l
  end.

(** The records handed to the loggers, in order. *)
Fixpoint emitted (t : list Event) : list (string * Z * string) :=
  match t with
  | [] => []
  | Logged lg lv m :: r => (lg, lv, m) :: emitted r
  | _ :: r => emitted r
  end.


(** The verbosity inputs as the specification lists them: the eight
    severity names and their eight ranks. *)
Definition severities : list (string * Z) :=
  [ ("debug", 0); ("extra", 10); ("info", 20); ("important", 25);
    ("prompt", 27); ("warning", 30); ("error", 50); ("header", 100) ].

Definition fixedRanks : list Z := [0; 10; 20; 25; 27; 30; 50; 100].

Definition acceptedLevel (lv : levelInput) : option Z :=
  match lv with
  | LevelStr s => assoc s severities
  | LevelInt z => if bool_decide (z ∈ fixedRanks) then Some z else None
  end.

(** What [warningReport] hands to [info]: the banner, one line per
    counted warning label in ascending order of count, the closing rule. *)
Definition reportBanner : list string :=
  [ "----- Final Warning Count --------"; warningReport_header ].

Definition reportLines (d : DefaultDict.t) : list string :=
  map warningReport_line (sorted_by_count (DefaultDict.items d)).

Definition reportRecords (p : Process) (msgs : list string) : list Event :=
  map (fun m => Logged (loggerName (LOG p)) 20 (_cleanMsg (context p) m)) msgs.

(** The paths of a rank's files: where the worker's [startLog] puts them
    and where the coordinator's [concatenateLogs] looks for them, for the
    run name [n] given to [startLog]. *)
Definition worker_stdout_path (n : string) (rank : Z) : string :=
  Py.path_join (Py.path_join "logs" n) (_stdoutName (Py.path_join "logs" n) rank).

Definition worker_stderr_path (n : string) (rank : Z) : string :=
  _stderrName (Py.path_join "logs" n) rank.

Definition coordinator_stdout_path (n : string) (rank : Z) : string :=
  Py.path_join "logs" (_stdoutName (Py.path_join "logs" n) rank).

Definition coordinator_stderr_path (n : string) (rank : Z) : string :=
  Py.path_join "logs" (_stderrName (Py.path_join "logs" n) rank).

(** A single-process run just after the module is imported, and a
    worker of a group of three. *)
Definition serial : Process := logFactory (mkContext 0 1 true) ∅ ∅ ∅.

Definition worker1 : Process := logFactory (mkContext 1 3 false) ∅ {[ "logs" ]} ∅.

(** The state after a suppress check counted [label] in class [c], and
    the label a message is counted under. *)
Definition bump (c : SeverityClass) (label : string) (p : Process) : Process :=
  set_LOG (set_counts c (DefaultDict.incr (counts c (LOG p)) label) (LOG p)) p.

Definition the_label (msg : string) (label : option string) : string :=
  match label with None => msg | Some l => l end.

(** A worker whose error stream was redirected by [startLog], and the
    same worker after some other code replaced [sys.stderr]. *)
Definition redirected : Process := snd (startLog "run" worker1).



(** The order on the counted items, and the items of one count. *)
Definition count_le (x y : string * Z) : Prop := snd x <= snd y.

Definition with_count (c : Z) (l : list (string * Z)) : list (string * Z) :=
  List.filter (fun x => snd x =? c) l.

(** The process after [info] was handed the messages, one after the
    other, at a threshold that lets them pass. *)
Definition log_all (msgs : list string) (p : Process) : Process :=
  mkProcess (context p) (LOG p) (sys_stderr p) (files p) (dirs p) (locked p)
            (next_id p) (trace p ++ reportRecords p msgs).

Definition reportMessages (d : DefaultDict.t) : list string :=
  (reportBanner ++ reportLines d ++ ["------------------------------------"])%list.

(** [warningReport] as the claim C8 words it, for every state: the
    banner and then one line per counted warning label are emitted. *)
Definition report_always_emitted (p : Process) : Prop :=
  exists rest,
    trace (snd (warningReport p))
    = (trace p
       ++ reportRecords p
            (reportBanner ++ reportLines (_singleWarningMessageCounts (LOG p)))
       ++ rest)%list.

(** A run that warned five times about B and then twice about A, and
    the same run once the threshold is raised to [warning]. *)
Definition counted : Process :=
  snd ((warning "B" true None ;; warning "B" true None ;; warning "B" true None ;;
        warning "B" true None ;; warning "B" true None ;;
        warning "A" true None ;; warning "A" true None) serial).

Definition counted_quiet : Process := snd (setVerbosity (LevelStr "warning") counted).

(** The coordinator of a group of three at shutdown.  Rank 1 left
    "hello" in its stdout file and an empty stderr file, rank 2 left
    nothing; the files are where [concatenateLogs] looks for them. *)
Definition hello_files : gmap string string :=
  <[ "logs/logs/run.0001.stdout" := "hello" +:+ Py.NL ]>
    (<[ "logs/logs/run.0001.stderr" := EmptyString ]> ∅).

Definition coordinator3 : Process :=
  snd (startLog "run" (logFactory (mkContext 0 3 false) hello_files {[ "logs" ]} ∅)).

(** The same shutdown for the run name /tmp/run, for which the worker
    and the coordinator compute the same paths. *)
Definition hello_files_abs : gmap string string :=
  <[ "/tmp/run.0001.stdout" := "hello" +:+ Py.NL ]>
    (<[ "/tmp/run.0001.stderr" := EmptyString ]> ∅).

Definition coordinator3_abs : Process :=
  snd (startLog "/tmp/run"
         (logFactory (mkContext 0 3 false) hello_files_abs {[ "logs" ]} ∅)).

(** The coordinator of a group of two at shutdown, with the files of
    rank 1 where the worker's [startLog "run"] put them. *)
Definition worker_files : gmap string string :=
  <[ "logs/run/logs/run.0001.stdout" := "hello" +:+ Py.NL ]>
    (<[ "logs/run.0001.stderr" := "oops" +:+ Py.NL ]> ∅).

Definition coordinator2 : Process :=
  snd (startLog "run" (logFactory (mkContext 0 2 false) worker_files {[ "logs" ]} ∅)).

(** ** The remaining module-level functions *)

(** Print raw text without any special functionality. *)
Definition raw (msg : string) : M unit :=
  standardLogMsg "header" msg false (Some msg).

Definition extra (msg : string) (single : bool) (label : option string) : M unit :=
  standardLogMsg "extra" msg single label.

Definition debug (msg : string) (single : bool) (label : option string) : M unit :=
  standardLogMsg "debug" msg single label.

Definition important (msg : string) (single : bool) (label : option string) : M unit :=
  standardLogMsg "important" msg single label.

Definition header (msg : string) (single : bool) (label : option string) : M unit :=
  standardLogMsg "header" msg single label.

(** [Log.flush], which the module-level [flush] calls on [LOG]. *)
Definition flush : M unit :=
  self <- get_LOG ;; emit (Flushed (_errStream self)).

Definition _getErrStream : M stream :=
  self <- get_LOG ;; ret (_errStream self).

(** The seven severity functions, to speak of a sequence of calls. *)
Inductive Severity :=
| Debug | Extra | Info | Important | Warning | Error | Header.

Definition severity_function (s : Severity)
  : string -> bool -> option string -> M unit :=
  match s with
  | Debug => debug
  | Extra => extra
  | Info => info
  | Important => important
  | Warning => warning
  | Error => error
  | Header => header
  end.

(** The rank of the level each function logs at, read off [_logLevels]. *)
Definition severity_rank (s : Severity) : Z :=
  match s with
  | Debug => 0
  | Extra => 10
  | Info => 20
  | Important => 25
  | Warning => 30
  | Error => 50
  | Header => 100
  end.

(** [for (f, msg) in calls: f(msg)] *)
Definition log_calls (calls : list (Severity * string)) : M unit :=
  for_ calls (fun c => severity_function (fst c) (snd c) false None).

(** The records of the calls that pass the threshold [t], in order. *)
Definition passing (lg : string) (ctx : Context) (t : Z)
    (calls : list (Severity * string)) : list Event :=
  map (fun c => Logged lg (severity_rank (fst c)) (_cleanMsg ctx (snd c)))
      (List.filter (fun c => t <=? severity_rank (fst c)) calls).

(** [n] times the same single-emit message. *)
Fixpoint repeat_single (n : nat) (msgType msg : string) (label : option string)
  : M unit :=
  match n with
  | O => ret tt
  | S k => standardLogMsg msgType msg true label ;; repeat_single k msgType msg label
  end.

(** The process after the events were added to its trace. *)
Definition add_events (es : list Event) (p : Process) : Process :=
  mkProcess (context p) (LOG p) (sys_stderr p) (files p) (dirs p) (locked p)
            (next_id p) (trace p ++ es).

(** Strings made of whitespace only, and strings that end in it. *)
Fixpoint all_space (s : string) : bool :=
  match s with
  | EmptyString => true
  | String c r => Py.isspace c && all_space r
  end.

Fixpoint ends_in_space (s : string) : bool :=
  match s with
  | EmptyString => false
  | String c EmptyString => Py.isspace c
  | String _ r => ends_in_space r
  end.




(** ** prompt *)

(** More of [str], on the characters below 128: [lstrip], [strip],
    [upper]. *)
Module PyStr.

Fixpoint lstrip (s : string) : string :=
  match s with
  | EmptyString => EmptyString
  | String c r => if Py.isspace c then lstrip r else s
  end.

Definition strip (s : string) : string := Py.rstrip (lstrip s).

Definition upper_char (c : ascii) : ascii :=
  let n := nat_of_ascii c in
  if ((97 <=? n) && (n <=? 122))%nat then ascii_of_nat (n - 32) else c.

Fixpoint upper (s : string) : string :=
  match s with
  | EmptyString => EmptyString
  | String c r => String (upper_char c) (upper r)
  end.

End PyStr.

(** How a call of [prompt] ends: with an answer, with one of the
    exceptions it raises, with an exception of the logger, or not at all
    (the loop goes on for ever once the input is at its end). *)
Inductive prompt_result :=
| Answered (b : bool)
| RuntimeError (msg : string)
| RunLogPromptCancel
| RunLogPromptUnresolvable
| LoggerRaised (e : exn)
| NeverReturns.

(** [responses[index] = "NO"; responses.insert(index, "YES")] at the
    first index of YES_NO. *)
Fixpoint expand_YES_NO (responses : list string) : list string :=
  match responses with
  | [] => []
  | x :: r =>
      if String.eqb x "YES_NO" then "YES" :: "NO" :: r else x :: expand_YES_NO r
  end.

(** The responses built from the options of the call before and after
    the shorthands are added. *)
Definition prompt_offered (options : list string) : list string :=
  let responses :=
    List.filter
      (fun opt => bool_decide (opt ∈ ["YES_NO"; "YES"; "NO"; "CANCEL"; "OK"]))
      options in
  if bool_decide ("YES_NO" ∈ responses) then expand_YES_NO responses
  else responses.

Definition prompt_responses (options : list string) : list string :=
  let responses := prompt_offered options in
  let responses :=
    if bool_decide ("YES" ∈ responses) then (responses ++ ["Y"])%list else responses in
  if bool_decide ("NO" ∈ responses) then (responses ++ ["N"])%list else responses.

(** [any(responses)] *)
Definition py_any (l : list string) : bool :=
  existsb (fun s => negb (String.eqb s EmptyString)) l.

Definition prompt_question (question : string) (responses : list string) : string :=
  question +:+ " (" +:+ String.concat ", " responses +:+ "): ".

(** The [while] loop of [prompt].  [stdin] holds the lines that
    [sys.stdin.readline()] will return; at the end of the input it
    returns the empty string for ever. *)
Fixpoint prompt_while (responses : list string) (statement question : string)
    (response : string) (stdin : list string) (p : Process)
  : prompt_result * list string * Process :=
  if bool_decide (response ∈ responses)
  then
    (if String.eqb response "CANCEL" then RunLogPromptCancel
     else Answered (bool_decide (response ∈ ["YES"; "Y"; "OK"])),
     stdin, p)
  else
    match standardLogMsg "prompt" statement false None p with
    | (Raise e, p1) => (LoggerRaised e, stdin, p1)
    | (Return _, p1) =>
        match standardLogMsg "prompt" (prompt_question question responses)
                false None p1 with
        | (Raise e, p2) => (LoggerRaised e, stdin, p2)
        | (Return _, p2) =>
            match stdin with
            | line :: rest =>
                prompt_while responses statement question
                  (PyStr.upper (PyStr.strip line)) rest p2
            | [] =>
                if bool_decide (EmptyString ∈ responses)
                then (Answered false, [], p2)
                else (NeverReturns, [], p2)
            end
        end
    end.

(** [prompt(statement, question, *options)] outside the GUI mode;
    [interactive] is [context.CURRENT_MODE == Mode.INTERACTIVE]. *)
Definition prompt (interactive : bool) (statement question : string)
    (options : list string) (stdin : list string) (p : Process)
  : prompt_result * list string * Process :=
  if interactive
  then
    if negb (py_any (prompt_offered options))
    then (RuntimeError "No suitable responses in []", stdin, p)
    else prompt_while (prompt_responses options) statement question
           EmptyString stdin p
  else (RunLogPromptUnresolvable, stdin, p).

(** What one turn of the loop hands to the logger at the threshold of
    the process, and the same for [n] turns. *)
Definition prompt_turn (statement question : string) (responses : list string)
    (p : Process) : list Event :=
  if 27 <? _verbosity (LOG p) then []
  else [ Logged (loggerName (LOG p)) 27 (_cleanMsg (context p) statement);
         Logged (loggerName (LOG p)) 27
                (_cleanMsg (context p) (prompt_question question responses)) ].

Fixpoint prompt_turns (n : nat) (statement question : string)
    (responses : list string) (p : Process) : list Event :=
  match n with
  | O => []
  | S k => (prompt_turn statement question responses p
            ++ prompt_turns k statement question responses p)%list
  end.

(** The answer that a response stands for. *)
Definition prompt_answer (response : string) : prompt_result :=
  if String.eqb response "CANCEL" then RunLogPromptCancel
  else Answered (bool_decide (response ∈ ["YES"; "Y"; "OK"])).

Definition normalise (line : string) : string := PyStr.upper (PyStr.strip line).

Definition prompt_tokens : list string := ["YES_NO"; "YES"; "NO"; "CANCEL"; "OK"].

(** The rank that the number field of a file name stands for. *)
Definition rank_of_field (field : string) : option Z :=
  option_map Z.of_uint (NilEmpty.uint_of_string field).

(** * Properties *)

(** ** Python's strings and paths *)

Example str_of_int_12 : Py.str_of_int 12 = "12". Proof. reflexivity. Qed.
Example zfill_1 : Py.zfill_d 4 1 = "0001". Proof. reflexivity. Qed.
Example zfill_neg : Py.zfill_d 4 (-1) = "-001". Proof. reflexivity. Qed.
Example zfill_big : Py.zfill_d 4 12345 = "12345". Proof. reflexivity. Qed.
Example center_count : Py.center " " 10 "COUNT" = "  COUNT   ". Proof. reflexivity. Qed.
Example join_rel : Py.path_join "logs" "run" = "logs/run". Proof. reflexivity. Qed.
Example join_abs : Py.path_join "logs" "/tmp/run" = "/tmp/run". Proof. reflexivity. Qed.
Example rstrip_ex : Py.rstrip ("two two" +:+ String Py.nl EmptyString) = "two two".
Proof. reflexivity. Qed.

(** A multi-line message is stripped on the right and indented under
    the prefix. *)
Example cleanMsg_two_lines :
  _cleanMsg (mkContext 0 1 true) ("a" +:+ Py.NL +:+ "b" +:+ Py.NL)
  = "a" +:+ Py.NL +:+ "       b".
Proof. reflexivity. Qed.

(** ** The counting dictionaries *)

Module DefaultDictFacts.
Import DefaultDict.

Lemma get_set_eq d k v : get (set d k v) k = Some v.
Proof.
  induction d as [|[k' v'] r IH]; simpl.
  - by rewrite String.eqb_refl.
  - destruct (String.eqb k' k) eqn:E; simpl; rewrite E; auto.
Qed.


Lemma set_set d k v w : set (set d k v) k w = set d k w.
Proof.
  induction d as [|[k' v'] r IH]; simpl.
  - by rewrite String.eqb_refl.
  - destruct (String.eqb k' k) eqn:E; simpl; rewrite E; congruence.
Qed.

Lemma incr_set d k : incr d k = set d k (count d k + 1).
Proof.
  unfold incr, getitem, count. destruct (get d k); simpl; auto using set_set.
Qed.

Lemma get_incr_eq d k : get (incr d k) k = Some (count d k + 1).
Proof. rewrite incr_set. apply get_set_eq. Qed.

Lemma count_incr_eq d k : count (incr d k) k = count d k + 1.
Proof. unfold count at 1. by rewrite get_incr_eq. Qed.


Lemma getitem_incr d k : getitem (incr d k) k = (count d k + 1, incr d k).
Proof. unfold getitem. by rewrite get_incr_eq. Qed.

Lemma count_unseen d k : get d k = None -> count d k = 0.
Proof. unfold count. by intros ->. Qed.

Lemma count_clear d k : count (clear d) k = 0.
Proof. reflexivity. Qed.

End DefaultDictFacts.

(** ** Python's stable sort, on the counts *)

Lemma insert_by_count_perm x l : Permutation (insert_by_count x l) (x :: l).
Proof.
  induction l as [|y r IH]; simpl; [done|].
  destruct (snd x <=? snd y); [done|].
  rewrite IH. apply perm_swap.
Qed.

Lemma sorted_by_count_perm l : Permutation (sorted_by_count l) l.
Proof.
  induction l as [|x r IH]; simpl; [done|].
  rewrite insert_by_count_perm. by constructor.
Qed.

Lemma insert_by_count_sorted x l :
  StronglySorted count_le l -> StronglySorted count_le (insert_by_count x l).
Proof.
  induction 1 as [|y r Hr IH Hall]; simpl.
  - repeat constructor.
  - destruct (Z.leb_spec (snd x) (snd y)) as [Hle|Hgt].
    + constructor; [by constructor|].
      constructor; [done|].
      eapply Forall_impl; [exact Hall|]. unfold count_le. intros; simpl in *; lia.
    + constructor; [done|].
      rewrite (insert_by_count_perm x r).
      constructor; [unfold count_le; lia | done].
Qed.

Lemma sorted_by_count_sorted l : StronglySorted count_le (sorted_by_count l).
Proof.
  induction l; simpl; [constructor | by apply insert_by_count_sorted].
Qed.

(** Stability: the items of one count keep their order of insertion. *)
Lemma insert_by_count_stable c x l :
  StronglySorted count_le l ->
  with_count c (insert_by_count x l) = with_count c (x :: l).
Proof.
  induction 1 as [|y r Hr IH Hall]; [done|]. simpl insert_by_count.
  destruct (Z.leb_spec (snd x) (snd y)) as [Hle|Hgt]; [done|].
  change (with_count c (y :: insert_by_count x r))
    with (if snd y =? c then y :: with_count c (insert_by_count x r)
          else with_count c (insert_by_count x r)).
  rewrite IH. unfold with_count; simpl.
  destruct (Z.eqb_spec (snd y) c), (Z.eqb_spec (snd x) c); try done; lia.
Qed.

Lemma sorted_by_count_stable c l :
  with_count c (sorted_by_count l) = with_count c l.
Proof.
  induction l as [|x r IH]; [done|]. simpl sorted_by_count.
  rewrite insert_by_count_stable by apply sorted_by_count_sorted.
  unfold with_count in *; simpl. by rewrite IH.
Qed.

(** ** Running the methods *)

Lemma ltb_succ c : (1 <? c + 1) = (0 <? c).
Proof. destruct (Z.ltb_spec 1 (c + 1)), (Z.ltb_spec 0 c); lia || done. Qed.

Lemma msgHasAlreadyBeenEmitted_run label msgType p :
  _msgHasAlreadyBeenEmitted label msgType p =
  (Return (0 <? DefaultDict.count (counts (severityClass msgType) (LOG p)) label),
   bump (severityClass msgType) label p).
Proof.
  unfold _msgHasAlreadyBeenEmitted, severityClass, bump.
  destruct (String.eqb msgType "warning" || String.eqb msgType "critical");
    unfold bind, modify_LOG, modify, get_LOG; simpl;
    rewrite DefaultDictFacts.getitem_incr, ltb_succ;
    destruct p as [c [] ? ? ? ? ? ?]; simpl;
    match goal with |- context [0 <? ?x] => destruct (0 <? x) end; reflexivity.
Qed.

Lemma standardLogMsg_run msgType msg single label p v l :
  assoc msgType (_logLevels (context p)) = Some (v, l) ->
  standardLogMsg msgType msg single label p =
  if v <? _verbosity (LOG p) then (Return tt, p)
  else
    let rec := Logged (loggerName (LOG p)) v (_cleanMsg (context p) msg) in
    if single
    then
      let c := severityClass msgType in
      if 0 <? DefaultDict.count (counts c (LOG p)) (the_label msg label)
      then (Return tt, bump c (the_label msg label) p)
      else (Return tt, add_event rec (bump c (the_label msg label) p))
    else (Return tt, add_event rec p).
Proof.
  intros Hlv. unfold standardLogMsg, _logLevels_getitem, bind at 1, lift.
  rewrite Hlv. unfold bind at 1, get_LOG.
  destruct (v <? _verbosity (LOG p)); [done|].
  destruct single; unfold bind at 1.
  - fold (the_label msg label). rewrite msgHasAlreadyBeenEmitted_run.
    cbv zeta.
    destruct (0 <? _); [done|].
    unfold bind, emit, modify, get_LOG. simpl.
    unfold bump. destruct (severityClass msgType); reflexivity.
  - reflexivity.
Qed.

(** ** The verbosity table *)

Lemma assoc_None {V} k (l : list (string * V)) :
  assoc k l = None <-> k ∉ map fst l.
Proof.
  induction l as [|[k' v] r IH]; simpl.
  - split; [intros _; apply not_elem_of_nil | done].
  - rewrite not_elem_of_cons. destruct (String.eqb_spec k' k) as [->|Hne].
    + split; [done | intros [? _]; done].
    + rewrite IH. split; [intros; split; congruence | tauto].
Qed.

Lemma logLevels_rank ctx s :
  fst <$> assoc s (_logLevels ctx) = assoc s severities.
Proof.
  unfold _logLevels, severities. cbn [assoc].
  repeat (destruct (String.eqb _ s); [reflexivity|]). reflexivity.
Qed.

Lemma getLogVerbosityRank_run ctx s :
  getLogVerbosityRank ctx s =
  match assoc s severities with
  | Some r => Return r
  | None => Raise KeyError
  end.
Proof.
  unfold getLogVerbosityRank, getLogVerbosityLevels, _logLevels_getitem.
  rewrite <- (logLevels_rank ctx).
  destruct (decide (s ∈ map fst (_logLevels ctx))) as [Hin|Hnin].
  - rewrite bool_decide_true by done.
    destruct (assoc s (_logLevels ctx)) as [v|] eqn:E; [done|].
    by apply assoc_None in E.
  - rewrite bool_decide_false by done.
    apply assoc_None in Hnin. by rewrite Hnin.
Qed.

Lemma checkLogVerbsityRank_run ctx z :
  _checkLogVerbsityRank ctx z =
  if bool_decide (z ∈ fixedRanks) then Return z else Raise KeyError.
Proof.
  unfold _checkLogVerbsityRank, getLogVerbosityLevels, _logLevels.
  cbn [map fst _checkLogVerbsityRank_from].
  rewrite !getLogVerbosityRank_run. cbv [severities assoc String.eqb Ascii.eqb Bool.eqb].
  unfold fixedRanks.
  repeat match goal with
  | |- context [ ?a =? ?b ] =>
      destruct (Z.eqb_spec a b) as [->|?];
      [by rewrite bool_decide_true by (rewrite !elem_of_cons; tauto)|]
  end.
  rewrite bool_decide_false; [done|].
  rewrite !elem_of_cons, elem_of_nil. tauto.
Qed.

Lemma setVerbosity_run lv p :
  setVerbosity lv p =
  match acceptedLevel lv with
  | Some r => (Return tt, set_LOG (set_verbosity r (LOG p)) p)
  | None => (Raise KeyError, p)
  end.
Proof.
  unfold setVerbosity, bind, lift, acceptedLevel. destruct lv as [s|z].
  - rewrite getLogVerbosityRank_run. by destruct (assoc s severities).
  - rewrite checkLogVerbsityRank_run. by destruct (bool_decide _).
Qed.

(** ** Setting the verbosity *)



(** C10: a [setVerbosity] call with an invalid input raises and leaves
    the process as it was, so [getVerbosity] returns what it returned
    before the call. *)
Theorem setVerbosity_failure_atomic (lv : levelInput) (p : Process) :
  acceptedLevel lv = None ->
  fst (setVerbosity lv p) = Raise KeyError
  /\ snd (setVerbosity lv p) = p
  /\ fst (getVerbosity (snd (setVerbosity lv p))) = fst (getVerbosity p).
Proof.
  intros Hbad. by rewrite setVerbosity_run, Hbad.
Qed.

Lemma setVerbosity_failure_atomic_witness :
  (fst (setVerbosity (LevelStr "taco") worker1) = Raise KeyError
   /\ snd (setVerbosity (LevelStr "taco") worker1) = worker1
   /\ fst (getVerbosity (snd (setVerbosity (LevelStr "taco") worker1)))
      = fst (getVerbosity worker1))
  /\ (fst (setVerbosity (LevelInt 5000) serial) = Raise KeyError
   /\ snd (setVerbosity (LevelInt 5000) serial) = serial
   /\ fst (getVerbosity (snd (setVerbosity (LevelInt 5000) serial)))
      = fst (getVerbosity serial)).
Proof.
  split.
  - apply (setVerbosity_failure_atomic (LevelStr "taco") worker1). reflexivity.
  - apply (setVerbosity_failure_atomic (LevelInt 5000) serial). reflexivity.
Defined.

(** Any raise of [setVerbosity] leaves the process untouched. *)
Lemma setVerbosity_raise_unchanged lv p e :
  fst (setVerbosity lv p) = Raise e -> snd (setVerbosity lv p) = p.
Proof.
  rewrite setVerbosity_run. by destruct (acceptedLevel lv).
Qed.

(** ** The error stream *)



(** [setErrStream] installs the stream in both places, so a restore
    right after it puts [initialErr] back. *)
Lemma setErrStream_then_restore s p :
  sys_stderr (snd ((setErrStream s ;; _restoreErrStream) p)) = initialErr (LOG p).
Proof.
  unfold bind, setErrStream, _restoreErrStream, modify_LOG, modify, bind. simpl.
  by rewrite bool_decide_true.
Qed.

(** ** Deduplication *)

Lemma counts_set_counts c c' d l :
  counts c' (set_counts c d l) = if decide (c = c') then d else counts c' l.
Proof. destruct c, c', l; reflexivity. Qed.

Lemma bump_LOG c k p :
  LOG (bump c k p) = set_counts c (DefaultDict.incr (counts c (LOG p)) k) (LOG p).
Proof. reflexivity. Qed.

Lemma bump_count_same c k p :
  DefaultDict.count (counts c (LOG (bump c k p))) k
  = DefaultDict.count (counts c (LOG p)) k + 1.
Proof.
  rewrite bump_LOG, counts_set_counts, decide_True by done.
  apply DefaultDictFacts.count_incr_eq.
Qed.



Lemma bump_frame c k p :
  context (bump c k p) = context p /\ trace (bump c k p) = trace p
  /\ _verbosity (LOG (bump c k p)) = _verbosity (LOG p)
  /\ loggerName (LOG (bump c k p)) = loggerName (LOG p).
Proof. destruct c, p as [? [] ? ? ? ? ? ?]; done. Qed.




Lemma add_event_LOG e p : LOG (add_event e p) = LOG p.
Proof. reflexivity. Qed.

Lemma add_event_context e p : context (add_event e p) = context p.
Proof. reflexivity. Qed.

Lemma add_event_trace e p : trace (add_event e p) = (trace p ++ [e])%list.
Proof. reflexivity. Qed.




(** ** The warning report *)

Lemma info_run m p :
  _verbosity (LOG p) <= 20 ->
  info m false None p = (Return tt, log_all [m] p).
Proof.
  intros Hv. unfold info.
  rewrite (standardLogMsg_run "info" m false None p 20
             ("[info" +:+ _rank (context p) +:+ "] ") eq_refl).
  apply Z.ltb_ge in Hv. by rewrite Hv.
Qed.

Lemma log_all_nil p : log_all [] p = p.
Proof. destruct p. unfold log_all, reportRecords. simpl. by rewrite app_nil_r. Qed.

Lemma log_all_app a b p : log_all b (log_all a p) = log_all (a ++ b) p.
Proof.
  unfold log_all, reportRecords. simpl. by rewrite map_app, app_assoc.
Qed.

Lemma for_info_run {A} (f : A -> string) l p :
  _verbosity (LOG p) <= 20 ->
  for_ l (fun x => info (f x) false None) p = (Return tt, log_all (map f l) p).
Proof.
  revert p. induction l as [|x r IH]; intros p Hv; simpl.
  - by rewrite log_all_nil.
  - unfold bind. rewrite info_run by done.
    rewrite IH by done. by rewrite log_all_app.
Qed.

Lemma warningReport_run p :
  _verbosity (LOG p) <= 20 ->
  warningReport p
  = (Return tt, log_all (reportMessages (_singleWarningMessageCounts (LOG p))) p).
Proof.
  intros Hv. unfold warningReport, bind, get_LOG.
  rewrite !info_run by done.
  change (LOG (log_all _ (log_all _ p))) with (LOG p).
  rewrite for_info_run by done.
  rewrite info_run by done.
  by rewrite !log_all_app.
Qed.

Lemma warningReport_quiet p :
  20 < _verbosity (LOG p) -> warningReport p = (Return tt, p).
Proof.
  intros Hv. apply Z.ltb_lt in Hv.
  assert (Hinfo : forall m q, LOG q = LOG p -> info m false None q = (Return tt, q)).
  { intros m q Hq. unfold info.
    rewrite (standardLogMsg_run "info" m false None q 20
               ("[info" +:+ _rank (context q) +:+ "] ") eq_refl).
    by rewrite Hq, Hv. }
  unfold warningReport, bind, get_LOG. rewrite !Hinfo by done.
  assert (Hfor : forall l, for_ l (fun item => info (warningReport_line item) false None) p
                           = (Return tt, p)).
  { induction l as [|x r IH]; [done|]. simpl. unfold bind. by rewrite Hinfo. }
  rewrite Hfor. by apply Hinfo.
Qed.

(** C8, amended: when the threshold is at most the rank of [info],
    [warningReport] emits the two banner lines, then one formatted line
    per counted warning label, then the closing rule; the lines are in
    ascending order of count, labels of equal count in their order of
    insertion; the counters are left as they were.  With a higher
    threshold it emits nothing. *)
Theorem warningReport_ascending (p : Process) :
  let d := _singleWarningMessageCounts (LOG p) in
  (_verbosity (LOG p) <= 20 ->
     fst (warningReport p) = Return tt
     /\ trace (snd (warningReport p))
        = (trace p
           ++ reportRecords p
                (reportBanner ++ reportLines d ++ ["------------------------------------"]))%list
     /\ LOG (snd (warningReport p)) = LOG p)
  /\ (20 < _verbosity (LOG p) -> warningReport p = (Return tt, p))
  /\ Permutation (sorted_by_count (DefaultDict.items d)) (DefaultDict.items d)
  /\ StronglySorted count_le (sorted_by_count (DefaultDict.items d))
  /\ (forall c, with_count c (sorted_by_count (DefaultDict.items d))
                = with_count c (DefaultDict.items d)).
Proof.
  intros d. refine (conj _ (conj _ (conj _ (conj _ _)))).
  - intros Hv. by rewrite warningReport_run.
  - apply warningReport_quiet.
  - apply sorted_by_count_perm.
  - apply sorted_by_count_sorted.
  - intros c. apply sorted_by_count_stable.
Qed.

Lemma warningReport_ascending_witness :
  DefaultDict.items (_singleWarningMessageCounts (LOG counted)) = [("B", 5); ("A", 2)]
  /\ emitted (trace (snd (warningReport counted)))
     = (emitted (trace counted)
        ++ [ ("parent", 20, "----- Final Warning Count --------");
             ("parent", 20, "    COUNT                LABEL");
             ("parent", 20, "           2   A");
             ("parent", 20, "           5   B");
             ("parent", 20, "------------------------------------") ])%list
  /\ warningReport counted_quiet = (Return tt, counted_quiet).
Proof.
  destruct (warningReport_ascending counted) as (Hloud & _).
  destruct (warningReport_ascending counted_quiet) as (_ & Hquiet & _).
  refine (conj eq_refl (conj _ _)).
  - destruct Hloud as (_ & Htrace & _); [vm_compute; discriminate|].
    rewrite Htrace. vm_compute. reflexivity.
  - apply Hquiet. vm_compute. reflexivity.
Defined.

(** At the threshold of [warning] the report is silent: the claim C8 as
    worded, for every state, fails on a run that counted A twice and B
    five times. *)
Lemma warningReport_silent_above_info : ~ report_always_emitted counted_quiet.
Proof.
  intros [rest Hrest].
  rewrite warningReport_quiet in Hrest by (vm_compute; reflexivity).
  simpl snd in Hrest.
  rewrite <- (app_nil_r (trace counted_quiet)) in Hrest at 1.
  apply app_inv_head in Hrest. discriminate Hrest.
Qed.

(** ** Concatenation at shutdown *)

(** A rank whose stdout file is missing is skipped altogether. *)
Lemma concatenateLogs_rank_missing rank p :
  let out := Py.path_join "logs" (_stdoutName (name (LOG p)) rank) in
  files p !! out = None -> out ∉ dirs p ->
  concatenateLogs_rank rank p = (Return tt, p).
Proof.
  intros out Hnone Hdir.
  unfold concatenateLogs_rank, bind, get_LOG, os_path_exists. fold out.
  assert (Hdom : out ∉ dom (files p)) by (by rewrite not_elem_of_dom).
  rewrite (bool_decide_false _ Hdom), (bool_decide_false _ Hdir).
  cbn [orb]. unfold ret at 1. cbv beta iota.
  by rewrite (bool_decide_false _ Hdom), (bool_decide_false _ Hdir).
Qed.

(** A rank whose stdout file is there and can be removed: the file is
    printed and removed, and the stderr file is neither read nor
    removed, since the test that guards it looks at the stdout path
    again. *)
Lemma concatenateLogs_rank_run rank p data :
  let out := Py.path_join "logs" (_stdoutName (name (LOG p)) rank) in
  files p !! out = Some data -> out ∉ dirs p -> out ∉ locked p ->
  concatenateLogs_rank rank p
  = (Return tt,
     set_files (delete out (files p))
       (if String.eqb data EmptyString then p
        else add_event (Printed Stdout (data +:+ Py.NL))
               (add_event (Printed Stdout (rankId rank "STDOUT" +:+ Py.NL)) p))).
Proof.
  intros out Hsome Hdir Hlock.
  assert (Hin : out ∈ dom (files p)) by (apply elem_of_dom; eauto).
  assert (Hgone : out ∉ dom (delete out (files p)))
    by (rewrite not_elem_of_dom; apply lookup_delete_eq).
  unfold concatenateLogs_rank, bind at 1, get_LOG. fold out.
  unfold bind at 1, os_path_exists at 1.
  rewrite (bool_decide_true _ Hin). cbn [orb].
  unfold bind at 1. unfold bind at 1. unfold read_file at 1. rewrite Hsome.
  unfold bind at 1.
  destruct (String.eqb data EmptyString); cbn [negb].
  - unfold ret at 1. unfold try_except_OSError, os_remove at 1.
    rewrite (bool_decide_false _ Hlock), Hsome.
    unfold bind at 1, os_path_exists at 1. cbn [files dirs set_files].
    by rewrite (bool_decide_false _ Hgone), (bool_decide_false _ Hdir).
  - unfold bind at 1, print, emit, modify.
    unfold try_except_OSError, os_remove at 1. cbn [locked files add_event].
    rewrite (bool_decide_false _ Hlock), Hsome.
    unfold bind at 1, os_path_exists at 1. cbn [files dirs set_files add_event].
    by rewrite (bool_decide_false _ Hgone), (bool_decide_false _ Hdir).
Qed.

Lemma concatenateLogs_rank_stdout_only rank p data :
  let out := Py.path_join "logs" (_stdoutName (name (LOG p)) rank) in
  files p !! out = Some data -> out ∉ dirs p -> out ∉ locked p ->
  fst (concatenateLogs_rank rank p) = Return tt
  /\ files (snd (concatenateLogs_rank rank p)) = delete out (files p)
  /\ trace (snd (concatenateLogs_rank rank p))
     = (trace p
        ++ if String.eqb data EmptyString then []
           else [ Printed Stdout (rankId rank "STDOUT" +:+ Py.NL);
                  Printed Stdout (data +:+ Py.NL) ])%list.
Proof.
  intros out Hsome Hdir Hlock.
  rewrite (concatenateLogs_rank_run rank p data Hsome Hdir Hlock). fold out.
  destruct (String.eqb data EmptyString); simpl.
  - by rewrite app_nil_r.
  - by rewrite <- app_assoc.
Qed.

(** C1: on the scenario of the specification (group of three, rank 1
    left "hello" on stdout and an empty stderr file, rank 2 left nothing)
    [close] prints the banner and "hello" and removes the stdout file of
    rank 1, but the stderr file of rank 1 is still there afterwards: the
    second test of [concatenateLogs] looks at the stdout path, which was
    just removed. *)
Theorem close_leaves_stderr_file :
  fst (close coordinator3) = Return tt
  /\ trace (snd (close coordinator3))
     = (trace coordinator3
        ++ [ Logged "parent" 20 "Concatenating 3 standard streams";
             Printed Stdout (rankId 1 "STDOUT" +:+ Py.NL);
             Printed Stdout ("hello" +:+ Py.NL +:+ Py.NL) ])%list
  /\ files (snd (close coordinator3)) !! "logs/logs/run.0001.stdout" = None
  /\ files (snd (close coordinator3)) !! "logs/logs/run.0001.stderr" = Some EmptyString.
Proof. vm_compute. repeat split. Qed.

Example close_leaves_stderr_file_abs :
  files (snd (close coordinator3_abs)) !! "/tmp/run.0001.stdout" = None
  /\ files (snd (close coordinator3_abs)) !! "/tmp/run.0001.stderr" = Some EmptyString.
Proof. vm_compute. repeat split. Qed.

(** When the stdout file cannot be removed the stderr file is reached:
    it is printed to [sys.stderr] and removed, and the failed removal is
    logged as a warning. *)
Example stderr_reached_when_remove_fails :
  let p := snd (startLog "run"
             (logFactory (mkContext 0 2 false)
                (<[ "logs/logs/run.0001.stdout" := EmptyString ]>
                   (<[ "logs/logs/run.0001.stderr" := "oops" ]> ∅))
                {[ "logs" ]} {[ "logs/logs/run.0001.stdout" ]})) in
  fst (close p) = Return tt
  /\ trace (snd (close p))
     = (trace p
        ++ [ Logged "parent" 20 "Concatenating 2 standard streams";
             Logged "parent" 30 "Could not delete logs/logs/run.0001.stdout";
             Printed Console (rankId 1 "STDERR" +:+ Py.NL);
             Printed Console ("oops" +:+ Py.NL) ])%list
  /\ files (snd (close p)) !! "logs/logs/run.0001.stderr" = None.
Proof. vm_compute. repeat split. Qed.

(** The same without a stderr file: the read raises, [close] catches
    the error and logs it. *)
Example close_catches_read_error :
  let p := snd (startLog "run"
             (logFactory (mkContext 0 2 false)
                (<[ "logs/logs/run.0001.stdout" := EmptyString ]> ∅)
                {[ "logs" ]} {[ "logs/logs/run.0001.stdout" ]})) in
  fst (close p) = Return tt
  /\ emitted (trace (snd (close p)))
     = [ ("parent", 20, "Concatenating 2 standard streams");
         ("parent", 30, "Could not delete logs/logs/run.0001.stdout");
         ("parent", 30, "Failed to concatenate logs due to IOError.");
         ("parent", 50,
          "[Errno 2] No such file or directory: 'logs/logs/run.0001.stderr'") ].
Proof. vm_compute. repeat split. Qed.

(** A worker at shutdown flushes and closes its stream and puts the
    initial one back. *)
Example close_worker :
  trace (snd (close redirected))
    = (trace redirected
       ++ [ Flushed (Opened 1 "logs/run.0001.stderr");
            Closed (Opened 1 "logs/run.0001.stderr") ])%list
  /\ sys_stderr (snd (close redirected)) = Opened 0 "/dev/null".
Proof. vm_compute. repeat split. Qed.

(** ** The paths of the per-rank files *)

(** For a run name that is not absolute the coordinator looks one
    directory deeper than the worker wrote; for an absolute one the two
    agree. *)
Lemma path_join_absolute a b : Py.startswith_sep b = true -> Py.path_join a b = b.
Proof. unfold Py.path_join. by intros ->. Qed.

Lemma path_join_logs b :
  Py.startswith_sep b = false -> Py.path_join "logs" b = "logs/" +:+ b.
Proof. unfold Py.path_join. by intros ->. Qed.

Lemma startswith_sep_append a b :
  Py.startswith_sep a = true -> Py.startswith_sep (a +:+ b) = true.
Proof. destruct a as [|c a]; [done|]. simpl. by destruct (Ascii.eqb_spec c "/"). Qed.

Lemma length_append a b :
  String.length (a +:+ b) = (String.length a + String.length b)%nat.
Proof.
  induction a as [|c a IH]; [done|].
  change (S (String.length (a +:+ b)) = S (String.length a + String.length b)).
  by rewrite IH.
Qed.

Lemma coordinator_stderr_relative n rank :
  Py.startswith_sep n = false ->
  coordinator_stderr_path n rank = "logs/" +:+ worker_stderr_path n rank.
Proof.
  intros Hrel. unfold coordinator_stderr_path, worker_stderr_path.
  rewrite (path_join_logs n Hrel). by apply path_join_logs.
Qed.

Lemma coordinator_stderr_differs n rank :
  Py.startswith_sep n = false ->
  coordinator_stderr_path n rank <> worker_stderr_path n rank.
Proof.
  intros Hrel. rewrite (coordinator_stderr_relative n rank Hrel).
  generalize (worker_stderr_path n rank). intros s Heq.
  apply (f_equal String.length) in Heq. rewrite length_append in Heq.
  cbn in Heq. lia.
Qed.

Lemma paths_agree_absolute n rank :
  Py.startswith_sep n = true ->
  coordinator_stdout_path n rank = worker_stdout_path n rank
  /\ coordinator_stderr_path n rank = worker_stderr_path n rank.
Proof.
  intros Habs.
  unfold coordinator_stdout_path, worker_stdout_path,
    coordinator_stderr_path, worker_stderr_path.
  rewrite (path_join_absolute "logs" n Habs).
  unfold _stdoutName, _stderrName.
  by rewrite !path_join_absolute by by apply startswith_sep_append.
Qed.

(** [startLog] on a worker of a real group: the paths it uses are
    [worker_stdout_path] and [worker_stderr_path]. *)
Lemma startLog_worker n p :
  0 < _mpiRank (LOG p) -> _mpiSize (LOG p) <> 1 ->
  MPI_COMM_is_None (context p) = false ->
  let rank := _mpiRank (LOG p) in
  fst (startLog n p) = Return tt
  /\ trace (snd (startLog n p))
     = (trace p ++ [Configured (Some (worker_stdout_path n rank)) 30; BarrierReached])%list
  /\ sys_stderr (snd (startLog n p)) = Opened (next_id p) (worker_stderr_path n rank)
  /\ files (snd (startLog n p)) = <[ worker_stderr_path n rank := EmptyString ]> (files p).
Proof.
  intros Hrank Hsize Hcomm rank.
  assert (H0 : (_mpiRank (LOG p) =? 0) = false) by (apply Z.eqb_neq; lia).
  assert (H1 : (0 <? _mpiRank (LOG p)) = true) by (by apply Z.ltb_lt).
  assert (H2 : (_mpiSize (LOG p) =? 1) = false) by (by apply Z.eqb_neq).
  unfold startLog, bind, modify_LOG, modify, get_LOG, emit, setErrStream, open_w.
  cbn. rewrite H0, H1. cbn. rewrite H2, Hcomm. cbn. rewrite H1. cbn.
  rewrite <- app_assoc. done.
Qed.

Lemma createLogDir_run p :
  _createLogDir p
  = (Return tt,
     if bool_decide ("logs" ∈ dom (files p)) || bool_decide ("logs" ∈ dirs p)
     then p else set_dirs ({[ "logs" ]} ∪ dirs p) p).
Proof.
  unfold _createLogDir, bind at 1, os_path_exists at 1.
  destruct (bool_decide ("logs" ∈ dom (files p)) || bool_decide ("logs" ∈ dirs p)) eqn:E;
    cbn [negb]; [done|].
  unfold try_except_OSError, os_makedirs, bind, os_path_exists. by rewrite E.
Qed.

(** [startLog] on the coordinator: the name the paths of
    [concatenateLogs] are built from, with the files left alone. *)
Lemma startLog_coordinator n p :
  _mpiRank (LOG p) = 0 ->
  exists q, startLog n p = (Return tt, q)
    /\ name (LOG q) = Py.path_join "logs" n
    /\ files q = files p.
Proof.
  intros Hrank.
  unfold startLog, bind at 1, modify_LOG at 1, modify at 1.
  unfold bind at 1, get_LOG at 1. cbn [LOG set_LOG set_name _mpiRank].
  rewrite Hrank. change (0 =? 0) with true. change (0 <? 0) with false. cbv iota.
  unfold bind at 1. rewrite createLogDir_run.
  match goal with |- context [ret tt ;; _] => unfold bind at 1, ret at 1 end.
  match goal with
  | |- context [if ?b then set_LOG ?l p else ?e] =>
      set (s := if b then set_LOG l p else e);
      assert (Hq : name (LOG s) = Py.path_join "logs" n /\ files s = files p
                   /\ _mpiRank (LOG s) = 0)
        by (subst s; destruct b; cbn; auto);
      clearbody s
  end.
  destruct Hq as (Hname & Hfiles & Hrk). rename s into q. cbn [_mpiSize set_name].
  destruct ((_mpiSize (LOG p) =? 1) || MPI_COMM_is_None (context q)).
  - by exists q.
  - unfold bind, emit, modify, get_LOG. cbn [LOG add_event].
    rewrite Hrk. change (0 <? 0) with false. cbv iota.
    eexists. split; [reflexivity|]. by split.
Qed.

(** C4: for the run name "run" and rank 1 the worker's [startLog] hands
    logs/run/logs/run.0001.stdout to the logging configuration and opens
    logs/run.0001.stderr, while the coordinator's [close] looks for
    logs/logs/run.0001.stdout and logs/logs/run.0001.stderr: it prints
    nothing of what the worker left and removes none of it. *)
Theorem worker_and_coordinator_paths_differ :
  trace redirected
    = [Configured (Some "logs/run/logs/run.0001.stdout") 30; BarrierReached]
  /\ sys_stderr redirected = Opened 1 "logs/run.0001.stderr"
  /\ files redirected !! "logs/run.0001.stderr" = Some EmptyString
  /\ coordinator_stdout_path "run" 1 = "logs/logs/run.0001.stdout"
  /\ coordinator_stderr_path "run" 1 = "logs/logs/run.0001.stderr"
  /\ trace (snd (close coordinator2))
     = (trace coordinator2
        ++ [Logged "parent" 20 "Concatenating 2 standard streams"])%list
  /\ files (snd (close coordinator2)) = files coordinator2.
Proof. vm_compute. repeat split. Qed.

(** ** The classes of the deduplicator *)

(** [clearSingleWarnings] empties the counters of the class OTHER and
    keeps those of the warnings. *)
Lemma clearSingleWarnings_run p :
  clearSingleWarnings p = (Return tt, set_LOG (set_singleMessageCounts [] (LOG p)) p).
Proof. reflexivity. Qed.

Lemma clearSingleWarnings_counts p :
  counts OTHER (LOG (snd (clearSingleWarnings p))) = []
  /\ counts WARNING_LIKE (LOG (snd (clearSingleWarnings p)))
     = counts WARNING_LIKE (LOG p).
Proof. destruct p as [? [] ? ? ? ? ? ?]. split; reflexivity. Qed.

(** Of the severity names of the table only "warning" is counted with
    the warnings. *)
Lemma severityClass_of_level s r :
  assoc s severities = Some r ->
  severityClass s = if String.eqb s "warning" then WARNING_LIKE else OTHER.
Proof.
  unfold severities, severityClass. cbn [assoc].
  repeat match goal with
  | |- context [String.eqb ?a s] =>
      destruct (String.eqb_spec a s) as [<-|?]; [intros _; reflexivity|]
  end.
  discriminate.
Qed.

(** C2: after a single-emit warning X, [clearSingleWarnings] and the
    same warning again, only the first one was emitted, and the warning
    counter of X stands at 2: the clear operation empties the counters of
    the other class only. *)
Theorem clearSingleWarnings_keeps_warnings :
  let run := (warning "X" true None ;; clearSingleWarnings ;; warning "X" true None) in
  emitted (trace (snd (run serial))) = [("parent", 30, "X")]
  /\ _singleWarningMessageCounts (LOG (snd (run serial))) = [("X", 2)].
Proof. vm_compute. repeat split. Qed.

(** C3: the severity name "error" is counted in the class OTHER, so a
    single-emit error and a single-emit info message with one label
    share a counter (the info message is suppressed) and the error is
    absent from the warning counters. *)
Theorem error_counts_as_other :
  let run := (error "X" true None ;; info "X" true None) in
  severityClass "error" = OTHER
  /\ emitted (trace (snd (run serial))) = [("parent", 50, "X")]
  /\ _singleMessageCounts (LOG (snd (run serial))) = [("X", 2)]
  /\ _singleWarningMessageCounts (LOG (snd (run serial))) = [].
Proof. vm_compute. repeat split. Qed.

(** * Further properties of the module *)

(** ** Messages *)

Lemma logLevels_lookup ctx s :
  assoc s severities = None -> assoc s (_logLevels ctx) = None.
Proof.
  intros H. pose proof (logLevels_rank ctx s) as E. rewrite H in E.
  by destruct (assoc s (_logLevels ctx)).
Qed.

(** X1: a severity name that is not in the table makes [standardLogMsg]
    raise the key error before anything else happens: no record, no
    counter, the process is as it was. *)
Theorem standardLogMsg_unknown_level (msgType msg : string) (single : bool)
    (label : option string) (p : Process) :
  assoc msgType severities = None ->
  standardLogMsg msgType msg single label p = (Raise KeyError, p).
Proof.
  intros H. unfold standardLogMsg, bind, lift, _logLevels_getitem.
  by rewrite (logLevels_lookup _ _ H).
Qed.

Lemma standardLogMsg_unknown_level_witness :
  standardLogMsg "critical" "boom" true None counted = (Raise KeyError, counted).
Proof. apply standardLogMsg_unknown_level. reflexivity. Defined.

Lemma severity_function_run s msg p :
  severity_function s msg false None p
  = if severity_rank s <? _verbosity (LOG p) then (Return tt, p)
    else (Return tt,
          add_event (Logged (loggerName (LOG p)) (severity_rank s)
                            (_cleanMsg (context p) msg)) p).
Proof.
  destruct s; cbn [severity_function severity_rank];
    unfold debug, extra, info, important, warning, error, header;
    erewrite standardLogMsg_run by reflexivity; reflexivity.
Qed.

Lemma add_events_nil p : add_events [] p = p.
Proof. destruct p. unfold add_events. cbn. by rewrite app_nil_r. Qed.

Lemma add_events_cons e es p : add_events es (add_event e p) = add_events (e :: es) p.
Proof. unfold add_events, add_event. cbn. by rewrite <- app_assoc. Qed.

Lemma log_calls_run calls p :
  log_calls calls p
  = (Return tt,
     add_events (passing (loggerName (LOG p)) (context p) (_verbosity (LOG p)) calls) p).
Proof.
  unfold log_calls. revert p.
  induction calls as [|[s m] r IH]; intros p.
  - cbn. by rewrite add_events_nil.
  - cbn [for_ fst snd]. unfold bind. rewrite severity_function_run.
    unfold passing. cbn [List.filter fst snd].
    destruct (Z.ltb_spec (severity_rank s) (_verbosity (LOG p))) as [Hlt|Hge].
    + rewrite (proj2 (Z.leb_gt _ _)) by done. apply IH.
    + rewrite (proj2 (Z.leb_le _ _)) by done.
      rewrite IH. cbn [LOG context add_event map fst snd]. by rewrite add_events_cons.
Qed.

(** X2: a sequence of calls of the severity functions without
    [single] hands to the logger exactly the messages whose rank is not
    below the threshold, in the order of the calls; it never raises and
    leaves the logger (threshold, counters, streams) as it was. *)
Theorem log_calls_filter (calls : list (Severity * string)) (p : Process) :
  fst (log_calls calls p) = Return tt
  /\ trace (snd (log_calls calls p))
     = (trace p
        ++ passing (loggerName (LOG p)) (context p) (_verbosity (LOG p)) calls)%list
  /\ LOG (snd (log_calls calls p)) = LOG p.
Proof. by rewrite log_calls_run. Qed.

(** The parent test of the repository: at the threshold of [info] the
    debug message is invisible, the others come out in order. *)
Example caplog_parent :
  emitted (trace (snd (log_calls
     [ (Debug, "This is invisible."); (Info, "one");
       (Important, "two two" +:+ Py.NL); (Warning, "three three three");
       (Error, "four four four four") ] serial)))
  = [ ("parent", 20, "one"); ("parent", 25, "two two");
      ("parent", 30, "three three three"); ("parent", 50, "four four four four") ].
Proof. vm_compute. reflexivity. Qed.

Lemma acceptedLevel_bound lv r : acceptedLevel lv = Some r -> 0 <= r <= 100.
Proof.
  destruct lv as [s|z]; cbn [acceptedLevel].
  - unfold severities. cbn [assoc].
    repeat match goal with
    | |- context [String.eqb ?a s] => destruct (String.eqb a s); [intros [= <-]; lia|]
    end.
    discriminate.
  - case_bool_decide as Hin; [|discriminate]. intros [= <-].
    unfold fixedRanks in Hin. rewrite !elem_of_cons, elem_of_nil in Hin. lia.
Qed.

(** X3: after any successful [setVerbosity], [raw] and [header] still
    emit: no accepted threshold is above the rank of the header level. *)
Theorem raw_always_emitted (lv : levelInput) (msg : string) (p : Process) :
  fst (setVerbosity lv p) = Return tt ->
  let p' := snd (setVerbosity lv p) in
  let record := Logged (loggerName (LOG p)) 100 (_cleanMsg (context p) msg) in
  raw msg p' = (Return tt, add_event record p')
  /\ header msg false None p' = (Return tt, add_event record p').
Proof.
  rewrite setVerbosity_run.
  destruct (acceptedLevel lv) as [r|] eqn:E; [|discriminate]. intros _.
  apply acceptedLevel_bound in E. cbn [snd].
  unfold raw, header. split;
    erewrite standardLogMsg_run by reflexivity;
    cbn [LOG set_LOG _verbosity set_verbosity];
    rewrite (proj2 (Z.ltb_ge 100 r)) by lia; reflexivity.
Qed.

Lemma raw_always_emitted_witness :
  raw "banner" (snd (setVerbosity (LevelStr "header") serial))
  = (Return tt,
     add_event (Logged "parent" 100 "banner")
               (snd (setVerbosity (LevelStr "header") serial)))
  /\ header "banner" false None (snd (setVerbosity (LevelStr "header") serial))
  = (Return tt,
     add_event (Logged "parent" 100 "banner")
               (snd (setVerbosity (LevelStr "header") serial))).
Proof.
  apply (raw_always_emitted (LevelStr "header") "banner" serial). reflexivity.
Defined.

(** X6: setting the verbosity by a name of the table and by the rank
    that [getLogVerbosityRank] gives for the name are the same operation,
    and [getVerbosity] then returns that rank. *)
Theorem setVerbosity_name_or_rank (s : string) (r : Z) (p : Process) :
  getLogVerbosityRank (context p) s = Return r ->
  setVerbosity (LevelStr s) p = setVerbosity (LevelInt r) p
  /\ fst (setVerbosity (LevelInt r) p) = Return tt
  /\ fst (getVerbosity (snd (setVerbosity (LevelInt r) p))) = Return r.
Proof.
  rewrite getLogVerbosityRank_run, !setVerbosity_run. cbn [acceptedLevel].
  destruct (assoc s severities) as [r'|] eqn:E; [|discriminate].
  intros [= ->].
  assert (Hin : r ∈ fixedRanks).
  { revert E. unfold severities, fixedRanks. cbn [assoc].
    repeat match goal with
    | |- context [String.eqb ?a s] =>
        destruct (String.eqb a s); [intros [= <-]; rewrite !elem_of_cons; tauto|]
    end.
    discriminate. }
  by rewrite bool_decide_true.
Qed.

Lemma setVerbosity_name_or_rank_witness :
  setVerbosity (LevelStr "debug") worker1 = setVerbosity (LevelInt 0) worker1
  /\ fst (setVerbosity (LevelInt 0) worker1) = Return tt
  /\ fst (getVerbosity (snd (setVerbosity (LevelInt 0) worker1))) = Return 0.
Proof. apply setVerbosity_name_or_rank. reflexivity. Defined.

(** ** Counting *)

Lemma repeat_single_seen n msgType msg label p v l :
  assoc msgType (_logLevels (context p)) = Some (v, l) ->
  _verbosity (LOG p) <= v ->
  0 < DefaultDict.count (counts (severityClass msgType) (LOG p)) (the_label msg label) ->
  trace (snd (repeat_single n msgType msg label p)) = trace p
  /\ DefaultDict.count
       (counts (severityClass msgType) (LOG (snd (repeat_single n msgType msg label p))))
       (the_label msg label)
     = DefaultDict.count (counts (severityClass msgType) (LOG p)) (the_label msg label)
       + Z.of_nat n.
Proof.
  revert p. induction n as [|n IH]; intros p Hlv Hv Hseen.
  - cbn. split; [done | lia].
  - cbn [repeat_single]. unfold bind.
    rewrite (standardLogMsg_run _ _ _ _ _ _ _ Hlv).
    rewrite (proj2 (Z.ltb_ge _ _)) by done. cbv zeta.
    rewrite (proj2 (Z.ltb_lt _ _)) by done.
    destruct (bump_frame (severityClass msgType) (the_label msg label) p)
      as (Hctx & Htr & Hvb & _).
    destruct (IH (bump (severityClass msgType) (the_label msg label) p)) as [H1 H2].
    + by rewrite Hctx.
    + by rewrite Hvb.
    + rewrite bump_count_same. lia.
    + rewrite H1, H2, bump_count_same, Htr. split; [done | lia].
Qed.

(** X4: [n] single-emit messages of one severity with one label, from
    a state that never counted the label and at a threshold that lets
    the severity pass, hand one record to the logger and leave the
    counter of the label at [n]. *)
Theorem repeat_single_counts (n : nat) (msgType msg : string)
    (label : option string) (p : Process) (v : Z) (l : string) :
  assoc msgType (_logLevels (context p)) = Some (v, l) ->
  _verbosity (LOG p) <= v ->
  DefaultDict.get (counts (severityClass msgType) (LOG p)) (the_label msg label) = None ->
  let p' := snd (repeat_single (S n) msgType msg label p) in
  trace p' = (trace p ++ [Logged (loggerName (LOG p)) v (_cleanMsg (context p) msg)])%list
  /\ DefaultDict.count (counts (severityClass msgType) (LOG p')) (the_label msg label)
     = Z.of_nat (S n).
Proof.
  intros Hlv Hv Hnew. cbn [repeat_single]. unfold bind.
  rewrite (standardLogMsg_run _ _ _ _ _ _ _ Hlv).
  rewrite (proj2 (Z.ltb_ge _ _)) by done. cbv zeta.
  rewrite (DefaultDictFacts.count_unseen _ _ Hnew). change (0 <? 0) with false.
  cbv iota.
  destruct (bump_frame (severityClass msgType) (the_label msg label) p)
    as (Hctx & Htr & Hvb & _).
  set (q := add_event _ (bump _ _ p)).
  assert (Hq : DefaultDict.count (counts (severityClass msgType) (LOG q))
                 (the_label msg label) = 1).
  { subst q. rewrite add_event_LOG, bump_count_same.
    by rewrite (DefaultDictFacts.count_unseen _ _ Hnew). }
  destruct (repeat_single_seen n msgType msg label q v l) as [H1 H2].
  - subst q. by rewrite add_event_context, Hctx.
  - subst q. by rewrite add_event_LOG, Hvb.
  - lia.
  - cbn [snd]. rewrite H1, H2, Hq. subst q.
    rewrite add_event_trace, Htr. split; [done | lia].
Qed.

Lemma repeat_single_counts_witness :
  let p' := snd (repeat_single 5 "error" "disk full" (Some "disk") serial) in
  trace p' = (trace serial ++ [Logged "parent" 50 "disk full"])%list
  /\ DefaultDict.count (counts OTHER (LOG p')) "disk" = 5.
Proof.
  apply (repeat_single_counts 4 "error" "disk full" (Some "disk") serial 50 "[err ] ").
  - reflexivity.
  - vm_compute. discriminate.
  - reflexivity.
Defined.

(** X5: after [clearSingleWarnings] a single-emit message of any
    severity other than "warning" that passes the threshold is emitted,
    however often its label was counted before. *)
Theorem clearSingleWarnings_resurfaces (msgType msg : string)
    (label : option string) (p : Process) (v : Z) (l : string) :
  assoc msgType (_logLevels (context p)) = Some (v, l) ->
  msgType <> "warning" ->
  _verbosity (LOG p) <= v ->
  trace (snd ((clearSingleWarnings ;; standardLogMsg msgType msg true label) p))
  = (trace p ++ [Logged (loggerName (LOG p)) v (_cleanMsg (context p) msg)])%list.
Proof.
  intros Hlv Hne Hv. unfold bind. rewrite clearSingleWarnings_run.
  assert (Hclass : severityClass msgType = OTHER).
  { assert (Hs : assoc msgType severities = Some v)
      by (by rewrite <- (logLevels_rank (context p)), Hlv).
    rewrite (severityClass_of_level _ _ Hs).
    by destruct (String.eqb_spec msgType "warning"). }
  erewrite standardLogMsg_run by exact Hlv.
  cbn [LOG set_LOG _verbosity set_singleMessageCounts].
  rewrite (proj2 (Z.ltb_ge _ _)) by done. cbv zeta. rewrite Hclass.
  cbn [counts set_singleMessageCounts _singleMessageCounts].
  change (DefaultDict.count [] (the_label msg label)) with 0.
  change (0 <? 0) with false. cbv iota. cbn [snd].
  rewrite add_event_trace.
  by destruct (bump_frame OTHER (the_label msg label)
                 (set_LOG (set_singleMessageCounts [] (LOG p)) p)) as (_ & -> & _).
Qed.

Lemma clearSingleWarnings_resurfaces_witness :
  let seen := snd (repeat_single 3 "info" "hello" None serial) in
  trace (snd ((clearSingleWarnings ;; standardLogMsg "info" "hello" true None) seen))
  = (trace seen ++ [Logged "parent" 20 "hello"])%list.
Proof.
  apply (clearSingleWarnings_resurfaces "info" "hello" None
           (snd (repeat_single 3 "info" "hello" None serial)) 20 "[info] ").
  - reflexivity.
  - discriminate.
  - vm_compute. discriminate.
Defined.

(** ** The layout of a message *)

Lemma repeat_char_length c n : String.length (Py.repeat_char c n) = n.
Proof. induction n as [|n IH]; [done|]. cbn. by rewrite IH. Qed.

Lemma whitespace_length ctx :
  String.length (_whitespace ctx) = (7 + String.length (_rank ctx))%nat.
Proof.
  unfold _whitespace. rewrite repeat_char_length. unfold _logLevels.
  generalize (_rank ctx). intros r.
  cbv [map snd Py.str_max fold_left].
  repeat match goal with
  | |- context [String.ltb ?a ?b] =>
      let v := eval vm_compute in (String.ltb a b) in
      change (String.ltb a b) with v; cbv iota
  end.
  rewrite !length_append. cbn. lia.
Qed.

(** X7: the pad that [_cleanMsg] puts after every line break is as wide
    as the prefix of every level but the header, whatever the rank of
    the process. *)
Theorem whitespace_matches_prefix (ctx : Context) (level : string) (rank : Z)
    (label : string) :
  In (level, (rank, label)) (_logLevels ctx) ->
  level <> "header" ->
  String.length (_whitespace ctx) = String.length label.
Proof.
  intros Hin Hne. rewrite whitespace_length.
  unfold _logLevels in Hin. cbn [In] in Hin.
  repeat (destruct Hin as [[= <- <- <-]|Hin];
          [rewrite ?length_append; cbn; try lia; congruence|]).
  destruct Hin.
Qed.

Lemma whitespace_matches_prefix_witness :
  String.length (_whitespace (mkContext 12 16 false)) = String.length "[warn-012] ".
Proof.
  apply (whitespace_matches_prefix (mkContext 12 16 false) "warning" 30 "[warn-012] ").
  - vm_compute. tauto.
  - discriminate.
Defined.

Lemma rstrip_all_space ws : all_space ws = true -> Py.rstrip ws = EmptyString.
Proof.
  induction ws as [|c r IH]; [done|]. cbn [all_space Py.rstrip].
  intros [Hc Hr]%andb_true_iff. by rewrite (IH Hr), Hc.
Qed.

Lemma rstrip_app_space m ws :
  all_space ws = true -> Py.rstrip (m +:+ ws) = Py.rstrip m.
Proof.
  intros Hws. induction m as [|c r IH].
  - by apply rstrip_all_space.
  - change (String c r +:+ ws) with (String c (r +:+ ws)).
    cbn [Py.rstrip]. by rewrite IH.
Qed.

Lemma rstrip_not_ends_in_space m : ends_in_space (Py.rstrip m) = false.
Proof.
  induction m as [|c r IH]; [done|]. cbn [Py.rstrip].
  destruct (Py.rstrip r) as [|c' r'] eqn:E.
  - destruct (Py.isspace c) eqn:Hc; [done|]. cbn. by rewrite Hc.
  - exact IH.
Qed.

Lemma isspace_nl : Py.isspace Py.nl = true.
Proof. reflexivity. Qed.

Lemma ends_in_space_cons c t :
  t <> EmptyString -> ends_in_space (String c t) = ends_in_space t.
Proof. by destruct t. Qed.

Lemma ends_in_space_app a b :
  b <> EmptyString -> ends_in_space (a +:+ b) = ends_in_space b.
Proof.
  intros Hb. induction a as [|x a IH]; [done|].
  change (String x a +:+ b) with (String x (a +:+ b)).
  rewrite ends_in_space_cons; [exact IH|].
  destruct a; [exact Hb | discriminate].
Qed.

Lemma indent_newlines_nonempty pad m :
  m <> EmptyString -> Py.indent_newlines pad m <> EmptyString.
Proof.
  destruct m as [|c r]; [done|]. intros _. cbn [Py.indent_newlines].
  by destruct (Ascii.eqb c Py.nl).
Qed.

Lemma indent_not_ends_in_space pad m :
  ends_in_space m = false -> ends_in_space (Py.indent_newlines pad m) = false.
Proof.
  induction m as [|c r IH]; [done|]. intros Hm.
  destruct (decide (r = EmptyString)) as [->|Hr].
  - cbn in Hm. cbn [Py.indent_newlines].
    destruct (Ascii.eqb_spec c Py.nl) as [->|Hne]; [by rewrite isspace_nl in Hm|].
    exact Hm.
  - rewrite ends_in_space_cons in Hm by done. specialize (IH Hm).
    pose proof (indent_newlines_nonempty pad r Hr) as Hne.
    cbn [Py.indent_newlines]. destruct (Ascii.eqb c Py.nl).
    + rewrite ends_in_space_cons, ends_in_space_app; [done..|].
      destruct pad; [exact Hne | discriminate].
    + by rewrite ends_in_space_cons.
Qed.

Lemma indent_newlines_plain pad m :
  (forall c, In c (list_ascii_of_string m) -> c <> Py.nl) ->
  Py.indent_newlines pad m = m.
Proof.
  induction m as [|c r IH]; [done|]. intros Hnl. cbn [Py.indent_newlines].
  destruct (Ascii.eqb_spec c Py.nl) as [->|_].
  - exfalso. apply (Hnl Py.nl); [by left | done].
  - rewrite IH; [done|]. intros x Hx. apply Hnl. by right.
Qed.

(** X8: [_cleanMsg] does not see the whitespace at the end of a
    message, its result never ends in whitespace, and a message
    without a line break is only stripped on the right. *)
Theorem cleanMsg_strips (ctx : Context) (m : string) :
  (forall ws, all_space ws = true -> _cleanMsg ctx (m +:+ ws) = _cleanMsg ctx m)
  /\ ends_in_space (_cleanMsg ctx m) = false
  /\ ((forall c, In c (list_ascii_of_string m) -> c <> Py.nl) ->
      _cleanMsg ctx m = Py.rstrip m).
Proof.
  unfold _cleanMsg. refine (conj _ (conj _ _)).
  - intros ws Hws. by rewrite rstrip_app_space.
  - apply indent_not_ends_in_space, rstrip_not_ends_in_space.
  - intros Hnl. apply indent_newlines_plain.
    clear ctx. induction m as [|c r IH]; [done|]. cbn [Py.rstrip].
    assert (IH' := IH (fun x Hx => Hnl x (or_intror Hx))).
    destruct (Py.rstrip r) as [|c' r'].
    + destruct (Py.isspace c); [done|]. intros x [<-|[]]. apply Hnl. by left.
    + intros x [<-|Hx]; [apply Hnl; by left | by apply IH'].
Qed.

Lemma cleanMsg_strips_witness :
  _cleanMsg (mkContext 0 1 true) ("two two" +:+ (Py.NL +:+ "  "))
    = _cleanMsg (mkContext 0 1 true) "two two"
  /\ _cleanMsg (mkContext 0 1 true) "one  " = Py.rstrip "one  ".
Proof.
  destruct (cleanMsg_strips (mkContext 0 1 true) "two two") as (Hws & _ & _).
  destruct (cleanMsg_strips (mkContext 0 1 true) "one  ") as (_ & _ & Hplain).
  split.
  - apply Hws. reflexivity.
  - apply Hplain. intros c Hc. cbn in Hc.
    repeat (destruct Hc as [<-|Hc]; [discriminate|]). destruct Hc.
Defined.

(** ** The life of the log files *)










(** ** What concatenation leaves alone *)





















(** ** prompt *)

Lemma prompt_log m p :
  standardLogMsg "prompt" m false None p
  = (Return tt,
     if 27 <? _verbosity (LOG p) then p
     else add_event (Logged (loggerName (LOG p)) 27 (_cleanMsg (context p) m)) p).
Proof.
  erewrite standardLogMsg_run by reflexivity. by destruct (27 <? _verbosity (LOG p)).
Qed.

Lemma prompt_turn_run statement question R p :
  exists q,
    standardLogMsg "prompt" statement false None p = (Return tt, q)
    /\ standardLogMsg "prompt" (prompt_question question R) false None q
       = (Return tt, add_events (prompt_turn statement question R p) p).
Proof.
  eexists. split; [apply prompt_log|]. rewrite prompt_log. unfold prompt_turn.
  destruct (27 <? _verbosity (LOG p)) eqn:E.
  - by rewrite E, add_events_nil.
  - cbn [LOG add_event context]. rewrite E. unfold add_events, add_event. cbn.
    by rewrite <- app_assoc.
Qed.

Lemma add_events_app es es' p :
  add_events es' (add_events es p) = add_events (es ++ es') p.
Proof. unfold add_events. cbn. by rewrite app_assoc. Qed.

Lemma prompt_turn_frame statement question R es p :
  prompt_turn statement question R (add_events es p)
  = prompt_turn statement question R p.
Proof. reflexivity. Qed.

Lemma prompt_turns_frame n statement question R es p :
  prompt_turns n statement question R (add_events es p)
  = prompt_turns n statement question R p.
Proof. induction n as [|n IH]; [done|]. cbn [prompt_turns]. by rewrite IH. Qed.

Lemma prompt_while_accepted R statement question response stdin p :
  response ∈ R ->
  prompt_while R statement question response stdin p
  = (prompt_answer response, stdin, p).
Proof.
  intros Hin. destruct stdin; cbn [prompt_while]; by rewrite bool_decide_true.
Qed.

Lemma prompt_while_rejected R statement question response line rest p :
  response ∉ R ->
  prompt_while R statement question response (line :: rest) p
  = prompt_while R statement question (normalise line) rest
      (add_events (prompt_turn statement question R p) p).
Proof.
  intros Hout. cbn [prompt_while]. rewrite bool_decide_false by done.
  destruct (prompt_turn_run statement question R p) as (q & -> & ->). done.
Qed.

Lemma prompt_while_eof R statement question response p :
  response ∉ R -> EmptyString ∉ R ->
  prompt_while R statement question response [] p
  = (NeverReturns, [], add_events (prompt_turn statement question R p) p).
Proof.
  intros Hout Hempty. cbn [prompt_while]. rewrite bool_decide_false by done.
  destruct (prompt_turn_run statement question R p) as (q & -> & ->).
  by rewrite bool_decide_false.
Qed.

Lemma prompt_while_run R statement question response bad good rest p :
  response ∉ R ->
  Forall (fun line => normalise line ∉ R) bad ->
  normalise good ∈ R ->
  prompt_while R statement question response (bad ++ good :: rest) p
  = (prompt_answer (normalise good), rest,
     add_events (prompt_turns (S (length bad)) statement question R p) p).
Proof.
  intros Hout Hbad Hgood. revert response p Hout.
  induction Hbad as [|line bad Hline Hbad IH]; intros response p Hout.
  - cbn [app]. rewrite prompt_while_rejected by done.
    rewrite prompt_while_accepted by done. cbn [length prompt_turns].
    by rewrite app_nil_r.
  - cbn [app]. rewrite prompt_while_rejected by done.
    rewrite IH by done. rewrite add_events_app, prompt_turns_frame. done.
Qed.

Lemma prompt_while_hangs R statement question response stdin p :
  response ∉ R -> EmptyString ∉ R ->
  Forall (fun line => normalise line ∉ R) stdin ->
  prompt_while R statement question response stdin p
  = (NeverReturns, [],
     add_events (prompt_turns (S (length stdin)) statement question R p) p).
Proof.
  intros Hout Hempty Hbad. revert response p Hout.
  induction Hbad as [|line bad Hline Hbad IH]; intros response p Hout.
  - rewrite prompt_while_eof by done. cbn [length prompt_turns]. by rewrite app_nil_r.
  - rewrite prompt_while_rejected by done.
    rewrite IH by done. rewrite add_events_app, prompt_turns_frame. done.
Qed.

Lemma filter_tokens x options :
  x ∈ List.filter (fun opt => bool_decide (opt ∈ ["YES_NO"; "YES"; "NO"; "CANCEL"; "OK"]))
        options
  <-> x ∈ options /\ x ∈ prompt_tokens.
Proof.
  rewrite !list_elem_of_In, filter_In, bool_decide_eq_true, <- !list_elem_of_In. done.
Qed.

Lemma expand_YES_NO_incl x l :
  x ∈ expand_YES_NO l -> x ∈ l \/ x = "YES" \/ x = "NO".
Proof.
  induction l as [|y r IH]; cbn [expand_YES_NO]; [by left|].
  destruct (String.eqb_spec y "YES_NO") as [->|Hne].
  - rewrite !elem_of_cons. tauto.
  - rewrite !elem_of_cons. intros [->|H]; [tauto|]. destruct (IH H); tauto.
Qed.

Lemma expand_YES_NO_adds l :
  "YES_NO" ∈ l -> "YES" ∈ expand_YES_NO l /\ "NO" ∈ expand_YES_NO l.
Proof.
  induction l as [|y r IH]; [by intros ?%elem_of_nil|].
  cbn [expand_YES_NO]. destruct (String.eqb_spec y "YES_NO") as [->|Hne].
  - intros _. rewrite !elem_of_cons. tauto.
  - rewrite !elem_of_cons. intros [?|H]; [congruence|]. destruct (IH H). tauto.
Qed.

Lemma expand_YES_NO_keeps x l :
  x ∈ l -> x <> "YES_NO" -> x ∈ expand_YES_NO l.
Proof.
  intros Hin Hne. induction l as [|y r IH]; [done|].
  cbn [expand_YES_NO]. apply elem_of_cons in Hin.
  destruct (String.eqb_spec y "YES_NO") as [->|Hy].
  - destruct Hin as [->|Hin]; [done|]. rewrite !elem_of_cons. tauto.
  - rewrite elem_of_cons. destruct Hin as [->|Hin]; [by left | right; by apply IH].
Qed.

Lemma prompt_offered_spec x options :
  x <> "YES_NO" ->
  x ∈ prompt_offered options
  <-> (x ∈ options /\ x ∈ prompt_tokens)
      \/ ("YES_NO" ∈ options /\ (x = "YES" \/ x = "NO")).
Proof.
  intros Hne. unfold prompt_offered. cbv zeta. case_bool_decide as Hyn.
  - split.
    + intros [H|H]%expand_YES_NO_incl.
      * left. by apply filter_tokens.
      * right. split; [|done]. by apply (filter_tokens _ options) in Hyn as [? _].
    + intros [H|[_ [->| ->]]].
      * apply expand_YES_NO_keeps; [by apply filter_tokens | done].
      * by apply expand_YES_NO_adds.
      * by apply expand_YES_NO_adds.
  - rewrite filter_tokens. split; [by left|].
    intros [H|[H _]]; [done|]. exfalso. apply Hyn, filter_tokens.
    split; [done|]. unfold prompt_tokens. rewrite !elem_of_cons. tauto.
Qed.

Lemma prompt_offered_tokens x options :
  x ∈ prompt_offered options -> x ∈ prompt_tokens.
Proof.
  unfold prompt_offered. cbv zeta. case_bool_decide as Hyn.
  - intros [H|[->| ->]]%expand_YES_NO_incl;
      [by apply (filter_tokens _ options) in H as [_ ?]| |];
      unfold prompt_tokens; rewrite !elem_of_cons; tauto.
  - by intros [_ ?]%filter_tokens.
Qed.

Lemma prompt_responses_spec x options :
  x ∈ prompt_responses options
  <-> x ∈ prompt_offered options
      \/ (x = "Y" /\ "YES" ∈ prompt_offered options)
      \/ (x = "N" /\ "NO" ∈ prompt_offered options).
Proof.
  unfold prompt_responses. cbv zeta.
  destruct (decide ("YES" ∈ prompt_offered options)) as [Hy|Hy],
           (decide ("NO" ∈ prompt_offered options)) as [Hn|Hn].
  - rewrite (bool_decide_true _ Hy), bool_decide_true
      by (apply elem_of_app; by left).
    rewrite !elem_of_app, !list_elem_of_singleton. tauto.
  - rewrite (bool_decide_true _ Hy), bool_decide_false.
    + rewrite !elem_of_app, !list_elem_of_singleton. tauto.
    + rewrite elem_of_app, list_elem_of_singleton. intros [?|?]; [done | discriminate].
  - rewrite (bool_decide_false _ Hy), (bool_decide_true _ Hn).
    rewrite !elem_of_app, !list_elem_of_singleton. tauto.
  - rewrite (bool_decide_false _ Hy), (bool_decide_false _ Hn). tauto.
Qed.

Lemma prompt_responses_nonempty options : EmptyString ∉ prompt_responses options.
Proof.
  rewrite prompt_responses_spec. intros [H|[[? _]|[? _]]]; try discriminate.
  apply prompt_offered_tokens in H. unfold prompt_tokens in H.
  rewrite !elem_of_cons, elem_of_nil in H.
  destruct H as [?|[?|[?|[?|[?|[]]]]]]; discriminate.
Qed.

(** X15: the responses that [prompt] accepts are the offered tokens
    with YES_NO spelled out, and the shorthands go with the words: Y is
    accepted exactly when YES or YES_NO was among the options, N exactly
    when NO or YES_NO was, OK and CANCEL exactly when they were given. *)
Theorem prompt_accepts (options : list string) :
  let R := prompt_responses options in
  (forall x, x ∈ R -> x ∈ (prompt_tokens ++ ["Y"; "N"])%list)
  /\ ("YES" ∈ R <-> "YES" ∈ options \/ "YES_NO" ∈ options)
  /\ ("Y" ∈ R <-> "YES" ∈ options \/ "YES_NO" ∈ options)
  /\ ("NO" ∈ R <-> "NO" ∈ options \/ "YES_NO" ∈ options)
  /\ ("N" ∈ R <-> "NO" ∈ options \/ "YES_NO" ∈ options)
  /\ ("OK" ∈ R <-> "OK" ∈ options)
  /\ ("CANCEL" ∈ R <-> "CANCEL" ∈ options).
Proof.
  assert (Htok : forall t, t ∈ prompt_tokens <->
            t = "YES_NO" \/ t = "YES" \/ t = "NO" \/ t = "CANCEL" \/ t = "OK").
  { intros t. unfold prompt_tokens. rewrite !elem_of_cons, elem_of_nil. tauto. }
  assert (Hyes : "YES" ∈ prompt_offered options
                 <-> "YES" ∈ options \/ "YES_NO" ∈ options).
  { rewrite prompt_offered_spec by discriminate. rewrite Htok. intuition congruence. }
  assert (Hno : "NO" ∈ prompt_offered options
                <-> "NO" ∈ options \/ "YES_NO" ∈ options).
  { rewrite prompt_offered_spec by discriminate. rewrite Htok. intuition congruence. }
  cbv zeta. refine (conj _ (conj _ (conj _ (conj _ (conj _ (conj _ _)))))).
  - intros x. rewrite prompt_responses_spec, elem_of_app, !elem_of_cons, elem_of_nil.
    intros [H|[[-> _]|[-> _]]];
      [left; by apply (prompt_offered_tokens _ options) | tauto | tauto].
  - rewrite prompt_responses_spec, Hyes. intuition congruence.
  - rewrite prompt_responses_spec, Hyes.
    split; [intros [H|[[_ H]|[? _]]]; [|done|discriminate] | tauto].
    apply (prompt_offered_tokens _ options), Htok in H. intuition discriminate.
  - rewrite prompt_responses_spec, Hno. intuition congruence.
  - rewrite prompt_responses_spec, Hno.
    split; [intros [H|[[? _]|[_ H]]]; [|discriminate|done] | tauto].
    apply (prompt_offered_tokens _ options), Htok in H. intuition discriminate.
  - rewrite prompt_responses_spec, prompt_offered_spec by discriminate.
    rewrite Htok. intuition congruence.
  - rewrite prompt_responses_spec, prompt_offered_spec by discriminate.
    rewrite Htok. intuition congruence.
Qed.

Ltac eval_member :=
  match goal with
  | |- ?x ∈ ?l =>
      let x' := eval vm_compute in x in
      let l' := eval vm_compute in l in
      change (x' ∈ l'); rewrite !elem_of_cons; tauto
  | |- ?x ∉ ?l =>
      let x' := eval vm_compute in x in
      let l' := eval vm_compute in l in
      change (x' ∉ l'); rewrite !elem_of_cons, elem_of_nil; intuition discriminate
  end.

Lemma prompt_offered_none options :
  (forall o, o ∈ options -> o ∉ prompt_tokens) -> prompt_offered options = [].
Proof.
  intros Hnone. unfold prompt_offered. cbv zeta.
  assert (Hf : List.filter
                 (fun opt => bool_decide (opt ∈ ["YES_NO"; "YES"; "NO"; "CANCEL"; "OK"]))
                 options = []).
  { induction options as [|o r IH]; [done|]. cbn [List.filter].
    rewrite bool_decide_false by (apply Hnone; by left).
    apply IH. intros x Hx. apply Hnone. by right. }
  rewrite Hf. by rewrite bool_decide_false by apply not_elem_of_nil.
Qed.

Lemma prompt_offered_some options :
  (exists o, o ∈ options /\ o ∈ prompt_tokens) ->
  py_any (prompt_offered options) = true.
Proof.
  intros (o & Ho & Ht). unfold py_any. apply existsb_exists.
  destruct (decide (o = "YES_NO")) as [->|Hne].
  - exists "YES". split; [|done]. apply list_elem_of_In.
    apply prompt_offered_spec; [discriminate | right; tauto].
  - exists o. split.
    + apply list_elem_of_In, prompt_offered_spec; [done | by left].
    + unfold prompt_tokens in Ht. rewrite !elem_of_cons, elem_of_nil in Ht.
      destruct Ht as [->|[->|[->|[->|[->|[]]]]]]; done.
Qed.

(** X16: [prompt] refuses before it logs or reads anything: outside
    the interactive mode with RunLogPromptUnresolvable, and in it with a
    RuntimeError when none of the options is one of the five tokens. *)
Theorem prompt_refuses (statement question : string) (options stdin : list string)
    (p : Process) :
  prompt false statement question options stdin p = (RunLogPromptUnresolvable, stdin, p)
  /\ ((forall o, o ∈ options -> o ∉ prompt_tokens) ->
      prompt true statement question options stdin p
      = (RuntimeError "No suitable responses in []", stdin, p)).
Proof.
  split; [done|]. intros Hnone. unfold prompt.
  by rewrite (prompt_offered_none options Hnone).
Qed.

Lemma prompt_refuses_witness :
  prompt true "Overwrite?" "Sure" ["MAYBE"; "yes"] ["YES"] serial
  = (RuntimeError "No suitable responses in []", ["YES"], serial).
Proof.
  apply (proj2 (prompt_refuses "Overwrite?" "Sure" ["MAYBE"; "yes"] ["YES"] serial)).
  intros o Ho. unfold prompt_tokens.
  rewrite !elem_of_cons, elem_of_nil in Ho. rewrite !elem_of_cons, elem_of_nil.
  destruct Ho as [->|[->|[]]]; intuition discriminate.
Defined.

(** X17: in the interactive mode, with a usable option, [prompt]
    asks again for every line that is not an accepted response once
    stripped and upper-cased, and the first accepted line decides: CANCEL
    raises RunLogPromptCancel, YES, Y and OK answer true, the others
    false.  The lines after it are left in the input; each turn logs the
    statement and the question when the threshold lets the prompt level
    pass, and nothing else of the process changes. *)
Theorem prompt_first_accepted (statement question : string)
    (options bad : list string) (good : string) (rest : list string) (p : Process) :
  (exists o, o ∈ options /\ o ∈ prompt_tokens) ->
  Forall (fun line => normalise line ∉ prompt_responses options) bad ->
  normalise good ∈ prompt_responses options ->
  prompt true statement question options (bad ++ good :: rest) p
  = (prompt_answer (normalise good), rest,
     add_events (prompt_turns (S (length bad)) statement question
                   (prompt_responses options) p) p).
Proof.
  intros Hsome Hbad Hgood. unfold prompt.
  rewrite (prompt_offered_some options Hsome). cbn [negb].
  apply prompt_while_run; [apply prompt_responses_nonempty | done | done].
Qed.

Lemma prompt_first_accepted_witness :
  prompt true "Delete?" "Really" ["YES_NO"; "CANCEL"]
    ["maybe" +:+ Py.NL; " y " +:+ Py.NL; "no"] serial
  = (Answered true, ["no"],
     add_events
       [ Logged "parent" 27 "Delete?";
         Logged "parent" 27 "Really (YES, NO, CANCEL, Y, N):";
         Logged "parent" 27 "Delete?";
         Logged "parent" 27 "Really (YES, NO, CANCEL, Y, N):" ] serial).
Proof.
  apply (prompt_first_accepted "Delete?" "Really" ["YES_NO"; "CANCEL"]
           ["maybe" +:+ Py.NL] (" y " +:+ Py.NL) ["no"] serial).
  - exists "CANCEL". unfold prompt_tokens. rewrite !elem_of_cons. tauto.
  - constructor; [|constructor]. eval_member.
  - eval_member.
Defined.

(** X18: when the input ends before an accepted response came,
    [prompt] never returns: [readline] gives the empty string for ever
    and the empty string is never an accepted response. *)
Theorem prompt_hangs_at_eof (statement question : string)
    (options stdin : list string) (p : Process) :
  (exists o, o ∈ options /\ o ∈ prompt_tokens) ->
  Forall (fun line => normalise line ∉ prompt_responses options) stdin ->
  fst (fst (prompt true statement question options stdin p)) = NeverReturns.
Proof.
  intros Hsome Hbad. unfold prompt.
  rewrite (prompt_offered_some options Hsome). cbn [negb].
  rewrite prompt_while_hangs; [done | apply prompt_responses_nonempty.. | done].
Qed.

Lemma prompt_hangs_at_eof_witness :
  fst (fst (prompt true "Delete?" "Really" ["OK"] ["y"; "yes"] serial)) = NeverReturns.
Proof.
  apply (prompt_hangs_at_eof "Delete?" "Really" ["OK"] ["y"; "yes"] serial).
  - exists "OK". unfold prompt_tokens. rewrite !elem_of_cons. tauto.
  - constructor; [eval_member|]. constructor; [eval_member|]. constructor.
Defined.

(** ** The names of the log files *)

Lemma uint_of_zeros k s :
  NilEmpty.uint_of_string (Py.repeat_char "0" k +:+ s)
  = option_map (Nat.iter k Decimal.D0) (NilEmpty.uint_of_string s).
Proof.
  induction k as [|k IH].
  - change (Py.repeat_char "0" 0 +:+ s) with s.
    by destruct (NilEmpty.uint_of_string s).
  - change (Py.repeat_char "0" (S k) +:+ s)
      with (String "0" (Py.repeat_char "0" k +:+ s)).
    cbn [NilEmpty.uint_of_string]. rewrite IH.
    by destruct (NilEmpty.uint_of_string s).
Qed.

Lemma of_uint_zeros k d : Z.of_uint (Nat.iter k Decimal.D0 d) = Z.of_uint d.
Proof. induction k as [|k IH]; [done|]. exact IH. Qed.

Lemma str_of_int_digits z :
  0 <= z -> Py.str_of_int z = NilEmpty.string_of_uint (N.to_uint (Z.to_N z))
            /\ Z.of_uint (N.to_uint (Z.to_N z)) = z.
Proof.
  intros Hz. destruct z as [|q|q]; [done| |lia]. split.
  - unfold Py.str_of_int. cbn.
    destruct (Pos.to_uint q) eqn:E; try done.
    by apply DecimalPos.Unsigned.to_uint_nonnil in E.
  - exact (DecimalZ.of_to (Z.pos q)).
Qed.

(** The number field of a file name reads back as the rank. *)
Lemma rank_of_field_zfill width z :
  0 <= z -> rank_of_field (Py.zfill_d width z) = Some z.
Proof.
  intros Hz. unfold Py.zfill_d. rewrite (proj2 (Z.ltb_ge z 0)) by done.
  destruct (str_of_int_digits z Hz) as [Hs Hv].
  unfold Py.rjust, rank_of_field.
  rewrite uint_of_zeros, Hs, NilEmpty.usu. cbn [option_map].
  by rewrite of_uint_zeros, Hv.
Qed.

Lemma list_of_append a b :
  list_ascii_of_string (a +:+ b)
  = (list_ascii_of_string a ++ list_ascii_of_string b)%list.
Proof.
  induction a as [|c a IH]; [done|].
  change (String c a +:+ b) with (String c (a +:+ b)). cbn. by rewrite IH.
Qed.

Lemma list_of_string_inj a b :
  list_ascii_of_string a = list_ascii_of_string b -> a = b.
Proof.
  intros H. rewrite <- (string_of_list_ascii_of_string a),
    <- (string_of_list_ascii_of_string b). by rewrite H.
Qed.

Lemma name_field_inj n a b suffix :
  n +:+ "." +:+ a +:+ suffix = n +:+ "." +:+ b +:+ suffix -> a = b.
Proof.
  intros H. apply (f_equal list_ascii_of_string) in H.
  rewrite !list_of_append in H.
  apply app_inv_head, app_inv_head, app_inv_tail in H.
  by apply list_of_string_inj.
Qed.

(** X19: for one run name, the files of different ranks have
    different names, and the stdout file of a rank is never the stderr
    file of a rank. *)
Theorem log_file_names_distinct (n : string) (r1 r2 : Z) :
  0 <= r1 -> 0 <= r2 ->
  (_stdoutName n r1 = _stdoutName n r2 -> r1 = r2)
  /\ (_stderrName n r1 = _stderrName n r2 -> r1 = r2)
  /\ _stdoutName n r1 <> _stderrName n r2.
Proof.
  intros H1 H2.
  assert (Hfield : Py.zfill_d 4 r1 = Py.zfill_d 4 r2 -> r1 = r2).
  { intros E. pose proof (rank_of_field_zfill 4 r1 H1) as E1.
    rewrite E, rank_of_field_zfill in E1 by done. congruence. }
  unfold _stdoutName, _stderrName. refine (conj _ (conj _ _)).
  - intros E. by apply Hfield, (name_field_inj n _ _ ".stdout").
  - intros E. by apply Hfield, (name_field_inj n _ _ ".stderr").
  - intros E. apply (f_equal list_ascii_of_string) in E.
    rewrite !list_of_append in E.
    apply (f_equal (@rev ascii)) in E. rewrite !rev_app_distr in E.
    cbn in E. discriminate E.
Qed.

Lemma log_file_names_distinct_witness :
  (_stdoutName "logs/run" 1 = _stdoutName "logs/run" 12 -> 1 = 12)
  /\ (_stderrName "logs/run" 1 = _stderrName "logs/run" 12 -> 1 = 12)
  /\ _stdoutName "logs/run" 1 <> _stderrName "logs/run" 12.
Proof. apply (log_file_names_distinct "logs/run" 1 12); lia. Defined.



Lemma prompt_accepts_witness :
  "Y" ∈ prompt_responses ["YES_NO"; "CANCEL"]
  /\ ("N" ∈ prompt_responses ["OK"; "YES"] -> False).
Proof.
  destruct (prompt_accepts ["YES_NO"; "CANCEL"]) as (_ & _ & HY & _).
  destruct (prompt_accepts ["OK"; "YES"]) as (_ & _ & _ & _ & HN & _).
  split.
  - apply HY. right. rewrite !elem_of_cons. tauto.
  - intros H. apply HN in H. rewrite !elem_of_cons, !elem_of_nil in H.
    intuition discriminate.
Defined.
